(** * SQPnP pose solver: a shallow embedding of [sqpnp.cpp]

    The development follows the source file function by function:
    [RunSQP] (the refinement loop and its sign/projection epilogue) and
    [SQPnP] (input guard, accumulation of the quadratic form, null-space
    count, candidate loop, adaptive expansion).

    Number model.  A C++ [double] is an exact rational ([Q]); rounding,
    infinities and NaN are outside the model.  An [int] is a [Z].
    Eigen fixed-size matrices and vectors are total functions on their
    indices; the one array whose indices the source computes at run time
    ([s_]) is read through a bounds-checked accessor.

    Code that the source calls but does not define (the SQP linear
    system, the two nearest-rotation projectors, the orthogonality
    residual, the 3x3 inverse, Eigen's Jacobi SVD, [HandleSolution], and
    the named constants) is collected in the class [Externals]; every
    statement below holds for all instances of it. *)

From Stdlib Require Import QArith Qround ZArith List Bool Lia Lqa.
Import ListNotations.
Open Scope Q_scope.

(** ** Scalars *)

(** [x < y] on doubles, as a boolean. *)
Definition Qltb (x y : Q) : bool := negb (Qle_bool y x).

(** [std::numeric_limits<double>::max()]: (2^53 - 1) * 2^971. *)
Definition DBL_MAX : Q := inject_Z ((2 ^ 53 - 1) * 2 ^ 971).

(** ** Fixed-size Eigen types *)

Definition Matrix91 := nat -> Q.          (* 9x1 *)
Definition Matrix31 := nat -> Q.          (* 3x1 *)
Definition Matrix99 := nat -> nat -> Q.   (* 9x9 *)
Definition Matrix39 := nat -> nat -> Q.   (* 3x9 *)
Definition Matrix33 := nat -> nat -> Q.   (* 3x3 *)

Record Vector2d := mkV2 { v2x : Q; v2y : Q }.
Record Vector3d := mkV3 { v3x : Q; v3y : Q; v3z : Q }.
Record Quaterniond := mkQuat { qw : Q; qx : Q; qy : Q; qz : Q }.

Definition vec_of_list (l : list Q) : nat -> Q := fun i => nth i l 0.

Definition Zero2 : nat -> nat -> Q := fun _ _ => 0.

(** [M(i, j) += v] *)
Definition madd (M : nat -> nat -> Q) (i j : nat) (v : Q) : nat -> nat -> Q :=
  fun a b => if (Nat.eqb a i && Nat.eqb b j)%bool then M a b + v else M a b.

(** [M(i, j) = v] *)
Definition mset (M : nat -> nat -> Q) (i j : nat) (v : Q) : nat -> nat -> Q :=
  fun a b => if (Nat.eqb a i && Nat.eqb b j)%bool then v else M a b.

(** [-e], [k * e], [r + delta], [v.squaredNorm()] on 9-vectors. *)
Definition vneg (v : Matrix91) : Matrix91 := fun i => - v i.
Definition vscale (k : Q) (v : Matrix91) : Matrix91 := fun i => k * v i.
Definition vadd (u v : Matrix91) : Matrix91 := fun i => u i + v i.
Definition sum_upto (n : nat) (f : nat -> Q) : Q :=
  fold_left (fun acc k => acc + f k) (seq 0 n) 0.
Definition squaredNorm9 (v : Matrix91) : Q := sum_upto 9 (fun k => v k * v k).

(** [U_.block<9, 1>(0, i)]: column [i] of a 9x9 matrix. *)
Definition column (U : Matrix99) (i : nat) : Matrix91 := fun k => U k i.

(** Matrix products used by the driver. *)
Definition mneg (M : nat -> nat -> Q) : nat -> nat -> Q := fun i j => - M i j.
Definition mmul (inner : nat) (A B : nat -> nat -> Q) : nat -> nat -> Q :=
  fun i j => sum_upto inner (fun l => A i l * B l j).
Definition transpose (M : nat -> nat -> Q) : nat -> nat -> Q := fun i j => M j i.
Definition mplus (A B : nat -> nat -> Q) : nat -> nat -> Q :=
  fun i j => A i j + B i j.
Definition mvmul9 (P : Matrix39) (r : Matrix91) : Matrix31 :=
  fun k => sum_upto 9 (fun j => P k j * r j).

(** ** Faults and the error monad

    The source can leave defined behaviour in three ways that matter
    here: [std::vector::at] throws, [rbegin()] of an empty vector is
    dereferenced, or [s_] is indexed outside [0, 8].  [OutOfFuel] belongs
    to the model only: the loops below recurse on a fuel argument, and
    the properties show that the fuel they are given is never used up. *)

Inductive fault : Type :=
| AtOutOfRange (i : nat)
| EmptyRBegin
| IndexOutOfBounds (i : Z)
| OutOfFuel.

Inductive result (A : Type) : Type :=
| Ok (a : A)
| Fault (f : fault).
Arguments Ok {A} a.
Arguments Fault {A} f.

Definition bind {A B : Type} (c : result A) (k : A -> result B) : result B :=
  match c with
  | Ok a => k a
  | Fault f => Fault f
  end.

Notation "x <- c ;; k" := (bind c (fun x => k))
  (at level 61, c at next level, right associativity).

(** [v.at(i)] *)
Definition at_ {A : Type} (v : list A) (i : nat) : result A :=
  match nth_error v i with
  | Some x => Ok x
  | None => Fault (AtOutOfRange i)
  end.

(** [*v.rbegin()] *)
Fixpoint rbegin {A : Type} (v : list A) : result A :=
  match v with
  | [] => Fault EmptyRBegin
  | [x] => Ok x
  | _ :: tl => rbegin tl
  end.

(** [v.resize(n, d)] *)
Definition resize {A : Type} (n : nat) (d : A) (v : list A) : list A :=
  firstn n v ++ repeat d (n - length v).

(** [s_[i]] with the index checked against the nine entries. *)
Definition s_at (s : Matrix91) (i : Z) : result Q :=
  if ((0 <=? i) && (i <=? 8))%Z then Ok (s (Z.to_nat i))
  else Fault (IndexOutOfBounds i).

(** ** Accumulation of the quadratic form (lines 76-140) *)

Record Accum := mkAccum {
  Omega_ : Matrix99;
  QA : Matrix39;
  sum_wx : Q;
  sum_wy : Q;
  sum_wx2_plus_wy2 : Q;
  sum_w : Q;
  sum_X : Q;
  sum_Y : Q;
  sum_Z : Q
}.

Definition Accum_zero : Accum :=
  mkAccum Zero2 Zero2 0 0 0 0 0 0 0.

(** The contribution of one correspondence: weight [w], image point [m],
    world point [M] (the loop body once its three reads are done). *)
Definition accumulate_term (w : Q) (m : Vector2d) (M : Vector3d) (a : Accum)
  : Accum :=
  let wx := v2x m * w in
  let wy := v2y m * w in
  let wsq_norm_m := w * (v2x m * v2x m + v2y m * v2y m) in
  let X := v3x M in
  let Y := v3y M in
  let Z := v3z M in
  let X2 := X * X in let XY := X * Y in let XZ := X * Z in
  let Y2 := Y * Y in let YZ := Y * Z in let Z2 := Z * Z in
  let O := Omega_ a in
  (* a. block (0:2, 0:2) *)
  let O := madd O 0 0 (w * X2) in
  let O := madd O 0 1 (w * XY) in
  let O := madd O 0 2 (w * XZ) in
  let O := madd O 1 1 (w * Y2) in
  let O := madd O 1 2 (w * YZ) in
  let O := madd O 2 2 (w * Z2) in
  (* b. block (0:2, 6:8) *)
  let O := madd O 0 6 (- wx * X2) in
  let O := madd O 0 7 (- wx * XY) in
  let O := madd O 0 8 (- wx * XZ) in
  let O := madd O 1 7 (- wx * Y2) in
  let O := madd O 1 8 (- wx * YZ) in
  let O := madd O 2 8 (- wx * Z2) in
  (* c. block (3:5, 6:8) *)
  let O := madd O 3 6 (- wy * X2) in
  let O := madd O 3 7 (- wy * XY) in
  let O := madd O 3 8 (- wy * XZ) in
  let O := madd O 4 7 (- wy * Y2) in
  let O := madd O 4 8 (- wy * YZ) in
  let O := madd O 5 8 (- wy * Z2) in
  (* d. block (6:8, 6:8) *)
  let O := madd O 6 6 (wsq_norm_m * X2) in
  let O := madd O 6 7 (wsq_norm_m * XY) in
  let O := madd O 6 8 (wsq_norm_m * XZ) in
  let O := madd O 7 7 (wsq_norm_m * Y2) in
  let O := madd O 7 8 (wsq_norm_m * YZ) in
  let O := madd O 8 8 (wsq_norm_m * Z2) in
  (* Qi*Ai *)
  let wX := w * X in let wY := w * Y in let wZ := w * Z in
  let A := QA a in
  let A := madd A 0 0 wX in
  let A := madd A 0 1 wY in
  let A := madd A 0 2 wZ in
  let A := madd A 0 6 (- wx * X) in
  let A := madd A 0 7 (- wx * Y) in
  let A := madd A 0 8 (- wx * Z) in
  let A := madd A 1 3 wX in
  let A := madd A 1 4 wY in
  let A := madd A 1 5 wZ in
  let A := madd A 1 6 (- wy * X) in
  let A := madd A 1 7 (- wy * Y) in
  let A := madd A 1 8 (- wy * Z) in
  let A := madd A 2 0 (- wx * X) in
  let A := madd A 2 1 (- wx * Y) in
  let A := madd A 2 2 (- wx * Z) in
  let A := madd A 2 3 (- wy * X) in
  let A := madd A 2 4 (- wy * Y) in
  let A := madd A 2 5 (- wy * Z) in
  let A := madd A 2 6 (wsq_norm_m * X) in
  let A := madd A 2 7 (wsq_norm_m * Y) in
  let A := madd A 2 8 (wsq_norm_m * Z) in
  mkAccum O A
    (sum_wx a + wx) (sum_wy a + wy) (sum_wx2_plus_wy2 a + wsq_norm_m)
    (sum_w a + w)
    (sum_X a + X) (sum_Y a + Y) (sum_Z a + Z).

(** One pass of the [for] body at index [i]: the weight is read at [i],
    both points through [rbegin()]. *)
Definition accumulate_body (weights_ : list Q)
  (feature_positions : list Vector2d) (world_point : list Vector3d)
  (i : nat) (a : Accum) : result Accum :=
  w <- at_ weights_ i ;;
  m <- rbegin feature_positions ;;
  M <- rbegin world_point ;;
  Ok (accumulate_term w m M a).

(** [for (size_t i = 0; i < n; i++) body] in the error monad. *)
Fixpoint for_upto {St : Type} (body : nat -> St -> result St)
  (i count : nat) (st : St) : result St :=
  match count with
  | O => Ok st
  | S count' => st' <- body i st ;; for_upto body (S i) count' st'
  end.

Definition accumulate (weights_ : list Q)
  (feature_positions : list Vector2d) (world_point : list Vector3d)
  : result Accum :=
  for_upto (accumulate_body weights_ feature_positions world_point)
    0 (length world_point) Accum_zero.

(** The accumulation the specification describes: correspondence [i]
    contributes the term of world point [i] paired with image point [i],
    scaled by weight [i]. *)
Definition accumulate_body_spec (weights_ : list Q)
  (feature_positions : list Vector2d) (world_point : list Vector3d)
  (i : nat) (a : Accum) : result Accum :=
  w <- at_ weights_ i ;;
  m <- at_ feature_positions i ;;
  M <- at_ world_point i ;;
  Ok (accumulate_term w m M a).

Definition accumulate_spec (weights_ : list Q)
  (feature_positions : list Vector2d) (world_point : list Vector3d)
  : result Accum :=
  for_upto (accumulate_body_spec weights_ feature_positions world_point)
    0 (length world_point) Accum_zero.

(** ** Symmetric fill-in and the translation map (lines 142-175) *)

(** [Omega_(i, j) = Omega_(k, l)], in source order. *)
Definition fill_in_assignments : list ((nat * nat) * (nat * nat)) :=
  [ (* off-diagonal blocks (0:2, 6:8), (3:5, 6:8), (6:8, 6:8) *)
    ((1,6),(0,7)); ((2,6),(0,8)); ((2,7),(1,8));
    ((4,6),(3,7)); ((5,6),(3,8)); ((5,7),(4,8));
    ((7,6),(6,7)); ((8,6),(6,8)); ((8,7),(7,8));
    (* upper triangle of block (3:5, 3:5) *)
    ((3,3),(0,0)); ((3,4),(0,1)); ((3,5),(0,2));
    ((4,4),(1,1)); ((4,5),(1,2));
    ((5,5),(2,2));
    (* lower triangle *)
    ((1,0),(0,1));
    ((2,0),(0,2)); ((2,1),(1,2));
    ((3,0),(0,3)); ((3,1),(1,3)); ((3,2),(2,3));
    ((4,0),(0,4)); ((4,1),(1,4)); ((4,2),(2,4)); ((4,3),(3,4));
    ((5,0),(0,5)); ((5,1),(1,5)); ((5,2),(2,5)); ((5,3),(3,5)); ((5,4),(4,5));
    ((6,0),(0,6)); ((6,1),(1,6)); ((6,2),(2,6)); ((6,3),(3,6)); ((6,4),(4,6));
    ((6,5),(5,6));
    ((7,0),(0,7)); ((7,1),(1,7)); ((7,2),(2,7)); ((7,3),(3,7)); ((7,4),(4,7));
    ((7,5),(5,7)); ((7,6),(6,7));
    ((8,0),(0,8)); ((8,1),(1,8)); ((8,2),(2,8)); ((8,3),(3,8)); ((8,4),(4,8));
    ((8,5),(5,8));
    ((8,6),(6,8)); ((8,7),(7,8)) ]%nat.

Definition fill_in (O : Matrix99) : Matrix99 :=
  fold_left
    (fun M '((i, j), (k, l)) => mset M i j (M k l))
    fill_in_assignments O.

(** [Q = Sum(wi * Qi)] *)
Definition Q_of (a : Accum) : Matrix33 :=
  let M := Zero2 in
  let M := mset M 0 0 (sum_w a) in
  let M := mset M 0 1 0 in
  let M := mset M 0 2 (- sum_wx a) in
  let M := mset M 1 0 0 in
  let M := mset M 1 1 (sum_w a) in
  let M := mset M 1 2 (- sum_wy a) in
  let M := mset M 2 0 (- sum_wx a) in
  let M := mset M 2 1 (- sum_wy a) in
  let M := mset M 2 2 (sum_wx2_plus_wy2 a) in
  M.

(** ** Solutions, parameters and the code the source only calls *)

Record SQPSolution := mkSol {
  r : Matrix91;
  r_hat : Matrix91;
  t : Matrix31;
  num_iterations : Z
}.

Inductive NearestRotationMethod := FOAM | SVD.

Record SolverParameters := mkParams {
  sqp_det_threshold : Q;
  nearest_rotation_method : NearestRotationMethod
}.

(** The external routines are functions of their arguments;
    [HandleSolution] in addition owns a piece of object state ([Hidden])
    that the driver itself neither reads nor writes. *)
Class Externals := {
  Hidden : Type;
  SolveSQPSystem : Matrix91 -> Matrix91;
  NearestRotationMatrix_FOAM : Matrix91 -> Matrix91;
  NearestRotationMatrix_SVD : Matrix91 -> Matrix91;
  OrthogonalityError : Matrix91 -> Q;
  InvertSymmetric3x3 : Matrix33 -> Matrix33;
  (** [svd.matrixU()] and [svd.singularValues()] *)
  JacobiSVD : Matrix99 -> Matrix99 * Matrix91;
  (** [HandleSolution(solution, min_sq_error)]: the new running minimum
      and the new object state *)
  HandleSolution : SQPSolution -> Q -> Hidden -> Q * Hidden;
  DEFAULT_SQP_SQUARED_TOLERANCE : Q;
  DEFAULT_RANK_TOLERANCE : Q;
  DEFAULT_ORTHOGONALITY_SQUARED_ERROR_THRESHOLD : Q;
  SQRT3 : Q;
  parameters_ : SolverParameters;
  (** contents of default-constructed (unassigned) Eigen vectors *)
  indeterminate91 : Matrix91;
  indeterminate31 : Matrix31
}.

(** Modelled from the spec: [Determinant9x1] is declared in
    [sqpnp_helper.h], which is not part of the sources; the spec describes
    it as the determinant of the 9-vector reshaped as a 3x3 matrix by
    row-major flattening. *)
Definition Determinant9x1 (v : Matrix91) : Q :=
  v 0%nat * v 4%nat * v 8%nat + v 1%nat * v 5%nat * v 6%nat
  + v 2%nat * v 3%nat * v 7%nat
  - v 6%nat * v 4%nat * v 2%nat - v 7%nat * v 5%nat * v 0%nat
  - v 8%nat * v 3%nat * v 1%nat.

(** Calls issued by the driver, in order (ghost state). *)
Inductive Event : Type :=
| CallNearestRotation (arg : Matrix91)
| CallRunSQP (seed : Matrix91)
| CallHandleSolution (sol : SQPSolution).

(** What the search loops thread: the local [min_sq_error], the object
    state behind [HandleSolution], and the call log. *)
Record SearchState {E : Externals} := mkSearch {
  min_sq_error : Q;
  hidden : Hidden;
  log : list Event
}.
Arguments mkSearch {E} _ _ _.
Arguments min_sq_error {E} _.
Arguments hidden {E} _.
Arguments log {E} _.

(** Object members written by [SQPnP]. *)
Record Members {E : Externals} := mkMembers {
  weights_ : list Q;
  num_null_vectors_ : Z;
  P_ : Matrix39;
  U_ : Matrix99;
  s_ : Matrix91;
  NearestRotationMatrix_ : option NearestRotationMethod;
  object_state : Hidden
}.
Arguments mkMembers {E} _ _ _ _ _ _ _.
Arguments weights_ {E} _.
Arguments num_null_vectors_ {E} _.
Arguments P_ {E} _.
Arguments U_ {E} _.
Arguments s_ {E} _.
Arguments NearestRotationMatrix_ {E} _.
Arguments object_state {E} _.

(** How a call of [SQPnP] ends. *)
Inductive Outcome : Type :=
| ReturnFalse                 (* [return false;] *)
| NoReturnValue               (* control reaches the closing brace *)
| Faulted (f : fault).

Record CallResult {E : Externals} := mkCall {
  outcome : Outcome;
  members : Members;
  search_log : list Event;
  solution_rotation : list Quaterniond;
  solution_translation : list Vector3d
}.
Arguments mkCall {E} _ _ _ _ _.
Arguments outcome {E} _.
Arguments members {E} _.
Arguments search_log {E} _.
Arguments solution_rotation {E} _.
Arguments solution_translation {E} _.

Section Solver.
Context {E : Externals}.

(** ** RunSQP (lines 20-54) *)

(** The [while] loop.  [step++ < TOL] increments [step] whenever it is
    evaluated, that is whenever the first conjunct holds. *)
Fixpoint sqp_loop (fuel : nat) (rv : Matrix91) (delta_squared_norm : Q)
  (step : Z) : result (Matrix91 * Z) :=
  if Qltb DEFAULT_SQP_SQUARED_TOLERANCE delta_squared_norm then
    if Qltb (inject_Z step) DEFAULT_SQP_SQUARED_TOLERANCE then
      match fuel with
      | O => Fault OutOfFuel
      | S fuel' =>
          let delta := SolveSQPSystem rv in
          sqp_loop fuel' (vadd rv delta) (squaredNorm9 delta) (step + 1)%Z
      end
    else Ok (rv, (step + 1)%Z)
  else Ok (rv, step).

(** Lines 35-53: sign flip and projection. *)
Definition RunSQP_finish (nrm : Matrix91 -> Matrix91) (rv : Matrix91)
  (step : Z) : SQPSolution :=
  let det_r := Determinant9x1 rv in
  let '(sr, det_r) :=
    if Qltb det_r 0 then (vneg rv, - det_r) else (rv, det_r) in
  let rh := if Qltb (sqp_det_threshold parameters_) det_r then nrm sr else sr in
  mkSol sr rh indeterminate31 step.

Definition RunSQP_fuel (fuel : nat) (nrm : Matrix91 -> Matrix91)
  (r0 : Matrix91) : result SQPSolution :=
  p <- sqp_loop fuel r0 DBL_MAX 0%Z ;;
  Ok (RunSQP_finish nrm (fst p) (snd p)).

(** The number of non-negative integers below the tolerance. *)
Definition sqp_iteration_cap : nat :=
  Z.to_nat (Qceiling DEFAULT_SQP_SQUARED_TOLERANCE).

Definition RunSQP (nrm : Matrix91 -> Matrix91) (r0 : Matrix91) : SQPSolution :=
  match RunSQP_fuel sqp_iteration_cap nrm r0 with
  | Ok sol => sol
  | Fault _ => RunSQP_finish nrm r0 0%Z
  end.

(** ** Null-space dimension (lines 183-189) *)

(** [while (s_[7 - num_null_vectors] < DEFAULT_RANK_TOLERANCE)
       num_null_vectors++;] *)
Fixpoint null_space_scan (fuel : nat) (s : Matrix91) (num_null_vectors : Z)
  : result Z :=
  x <- s_at s (7 - num_null_vectors)%Z ;;
  if Qltb x DEFAULT_RANK_TOLERANCE then
    match fuel with
    | O => Fault OutOfFuel
    | S fuel' => null_space_scan fuel' s (num_null_vectors + 1)%Z
    end
  else Ok num_null_vectors.

(** The scan followed by [++num_null_vectors]. *)
Definition null_space_size (s : Matrix91) : result Z :=
  n <- null_space_scan 9 s 0%Z ;;
  Ok (n + 1)%Z.

(** ** Candidate handling (lines 211-261) *)

Definition record (evs : list Event) (st : SearchState) : SearchState :=
  mkSearch (min_sq_error st) (hidden st) (log st ++ evs).

Definition handle (sol : SQPSolution) (st : SearchState) : SearchState :=
  let p := HandleSolution sol (min_sq_error st) (hidden st) in
  mkSearch (fst p) (snd p) (log st ++ [CallHandleSolution sol]).

(** [NearestRotationMatrix(e, solution.r); solution = RunSQP(solution.r);
     solution.t = P_*solution.r_hat; HandleSolution(solution, min_sq_error);] *)
Definition refine_from (nrm : Matrix91 -> Matrix91) (P : Matrix39)
  (e : Matrix91) (st : SearchState) : SearchState :=
  let seed := nrm e in
  let sol := RunSQP nrm seed in
  let sol := mkSol (r sol) (r_hat sol) (mvmul9 P (r_hat sol))
                   (num_iterations sol) in
  handle sol (record [CallNearestRotation e; CallRunSQP seed] st).

Definition refine_both_signs (nrm : Matrix91 -> Matrix91) (P : Matrix39)
  (e : Matrix91) (st : SearchState) : SearchState :=
  refine_from nrm P (vneg e) (refine_from nrm P e st).

(** The near-orthogonal branch (lines 222-226). *)
Definition accept_directly (P : Matrix39) (e : Matrix91) (st : SearchState)
  : SearchState :=
  let rh := vscale (Determinant9x1 e) e in
  handle (mkSol indeterminate91 rh (mvmul9 P rh) 0%Z) st.

(** Body of the [for] loop at column [i]. *)
Definition candidate_body (nrm : Matrix91 -> Matrix91) (P : Matrix39)
  (U : Matrix99) (i : Z) (st : SearchState) : SearchState :=
  let e := vscale SQRT3 (column U (Z.to_nat i)) in
  let orthogonality_sq_error := OrthogonalityError e in
  if Qltb orthogonality_sq_error DEFAULT_ORTHOGONALITY_SQUARED_ERROR_THRESHOLD
  then accept_directly P e st
  else refine_both_signs nrm P e st.

(** [for (int i = 9 - num_eigen_points; i < 9; i++)] *)
Fixpoint candidate_loop (fuel : nat) (nrm : Matrix91 -> Matrix91)
  (P : Matrix39) (U : Matrix99) (i : Z) (st : SearchState)
  : result SearchState :=
  if (i <? 9)%Z then
    match fuel with
    | O => Fault OutOfFuel
    | S fuel' =>
        candidate_loop fuel' nrm P U (i + 1)%Z (candidate_body nrm P U i st)
    end
  else Ok st.

(** Body of the adaptive-expansion [while] at offset [c]. *)
Definition expansion_body (nrm : Matrix91 -> Matrix91) (P : Matrix39)
  (U : Matrix99) (num_eigen_points c : Z) (st : SearchState) : SearchState :=
  let index := (9 - num_eigen_points - c)%Z in
  let e := column U (Z.to_nat index) in
  refine_both_signs nrm P e st.

(** [while (min_sq_error > 3 * s_[9 - num_eigen_points - c]
            && 9 - num_eigen_points - c > 0)] *)
Fixpoint expansion_loop (fuel : nat) (nrm : Matrix91 -> Matrix91)
  (P : Matrix39) (U : Matrix99) (s : Matrix91) (num_eigen_points c : Z)
  (st : SearchState) : result SearchState :=
  x <- s_at s (9 - num_eigen_points - c)%Z ;;
  if (Qltb (3 * x) (min_sq_error st)
      && (0 <? 9 - num_eigen_points - c)%Z)%bool then
    match fuel with
    | O => Fault OutOfFuel
    | S fuel' =>
        expansion_loop fuel' nrm P U s num_eigen_points (c + 1)%Z
          (expansion_body nrm P U num_eigen_points c st)
    end
  else Ok st.

(** ** SQPnP (lines 64-263)

    [inv_n] and [point_mean] (lines 191-194) are computed and never read;
    they are left out. *)

Definition select_nearest_rotation (m : NearestRotationMethod)
  : Matrix91 -> Matrix91 :=
  match m with
  | FOAM => NearestRotationMatrix_FOAM
  | SVD => NearestRotationMatrix_SVD
  end.

(** Lines 206-261, once [num_null_vectors] passed the check. *)
Definition search (nrm : Matrix91 -> Matrix91) (P : Matrix39) (U : Matrix99)
  (s : Matrix91) (num_null_vectors : Z) (h : Hidden) : result SearchState :=
  let num_eigen_points :=
    if (0 <? num_null_vectors)%Z then num_null_vectors else 1%Z in
  st <- candidate_loop 9 nrm P U (9 - num_eigen_points)%Z
          (mkSearch DBL_MAX h []) ;;
  expansion_loop 9 nrm P U s num_eigen_points 1%Z st.

(** Lines 142-175: symmetric fill-in, [Q], [Qinv], [P_ = -Qinv * QA] and
    [Omega_ += QA.transpose() * P_]. *)
Definition complete_form (a : Accum) : Matrix39 * Matrix99 :=
  let Om := fill_in (Omega_ a) in
  let Qinv := InvertSymmetric3x3 (Q_of a) in
  let P := mmul 3 (mneg Qinv) (QA a) in
  (P, mplus Om (mmul 3 (transpose (QA a)) P)).

(** The singular values the driver computes for a given input (lines
    73-181), or the fault that prevents it. *)
Definition singular_values (w : list Q) (feature_positions : list Vector2d)
  (world_point : list Vector3d) : result Matrix91 :=
  a <- accumulate w feature_positions world_point ;;
  Ok (snd (JacobiSVD (snd (complete_form a)))).

Definition SQPnP (this : Members)
  (feature_positions : list Vector2d) (world_point : list Vector3d)
  (solution_rotation : list Quaterniond)
  (solution_translation : list Vector3d) : CallResult :=
  let finish o m l := mkCall o m l solution_rotation solution_translation in
  if (negb (Nat.eqb (length world_point) (length feature_positions))
      || Nat.ltb (length world_point) 3
      || Nat.ltb (length feature_positions) 3)%bool
  then finish ReturnFalse this []
  else
    let w := resize (length world_point) 1 (weights_ this) in
    let this := mkMembers w (-1)%Z (P_ this) (U_ this) (s_ this)
                  (NearestRotationMatrix_ this) (object_state this) in
    match accumulate w feature_positions world_point with
    | Fault f => finish (Faulted f) this []
    | Ok a =>
        let P := fst (complete_form a) in
        let Om := snd (complete_form a) in
        let U := fst (JacobiSVD Om) in
        let s := snd (JacobiSVD Om) in
        let this := mkMembers w (-1)%Z P U s
                      (NearestRotationMatrix_ this) (object_state this) in
        match null_space_size s with
        | Fault f => finish (Faulted f) this []
        | Ok num_null_vectors =>
            if (6 <? num_null_vectors)%Z then finish ReturnFalse this []
            else
              let m := nearest_rotation_method parameters_ in
              let this := mkMembers w (-1)%Z P U s (Some m)
                            (object_state this) in
              match search (select_nearest_rotation m) P U s
                      num_null_vectors (object_state this) with
              | Fault f => finish (Faulted f) this []
              | Ok st =>
                  finish NoReturnValue
                    (mkMembers w (-1)%Z P U s (Some m) (hidden st))
                    (log st)
              end
        end
    end.

End Solver.

(** ** Derived notions used in the statements *)

Section Derived.
Context {E : Externals}.

(** Number of consecutive entries below the rank tolerance at indices
    [k], [k-1], ..., [0]. *)
Fixpoint below_tolerance_run (s : Matrix91) (k : nat) : nat :=
  if Qltb (s k) DEFAULT_RANK_TOLERANCE then
    match k with
    | O => 1
    | S k' => S (below_tolerance_run s k')
    end
  else 0.

(** The guard of the adaptive-expansion loop at a given index. *)
Definition expansion_continues (s : Matrix91) (index : Z) (st : SearchState)
  : bool :=
  (Qltb (3 * s (Z.to_nat index)) (min_sq_error st) && (0 <? index)%Z)%bool.

(** State after [k] passes of the expansion body, at offsets
    [c], [c + 1], ..., [c + k - 1]. *)
Fixpoint expansion_after (nrm : Matrix91 -> Matrix91) (P : Matrix39)
  (U : Matrix99) (num_eigen_points c : Z) (k : nat) (st : SearchState)
  : SearchState :=
  match k with
  | O => st
  | S k' =>
      expansion_body nrm P U num_eigen_points (c + Z.of_nat k')
        (expansion_after nrm P U num_eigen_points c k' st)
  end.

(** The six driver calls of one two-sign refinement of [e]. *)
Definition two_sign_events (nrm : Matrix91 -> Matrix91) (P : Matrix39)
  (e : Matrix91) : list Event :=
  let with_t sol :=
    mkSol (r sol) (r_hat sol) (mvmul9 P (r_hat sol)) (num_iterations sol) in
  [ CallNearestRotation e;
    CallRunSQP (nrm e);
    CallHandleSolution (with_t (RunSQP nrm (nrm e)));
    CallNearestRotation (vneg e);
    CallRunSQP (nrm (vneg e));
    CallHandleSolution (with_t (RunSQP nrm (nrm (vneg e)))) ].

Definition is_RunSQP (ev : Event) : bool :=
  match ev with CallRunSQP _ => true | _ => false end.

Definition is_HandleSolution (ev : Event) : bool :=
  match ev with CallHandleSolution _ => true | _ => false end.

(** [k] passes of the refinement update [r += SolveSQPSystem(r)]. *)
Fixpoint sqp_iterate (k : nat) (rv : Matrix91) : Matrix91 :=
  match k with
  | O => rv
  | S k' => sqp_iterate k' (vadd rv (SolveSQPSystem rv))
  end.

End Derived.

(** ** The specification's reading of two steps

    These two definitions follow the words of the specification, not the
    source; they are compared with the source's definitions below. *)

Section SpecReadings.
Context {E : Externals}.

(** Step 4 as written: scan from the smallest eigenvalue (index 8, the
    candidates being the last columns of the basis), count those below
    the tolerance, and add one extra candidate index unconditionally. *)
Definition spec_null_space_size (s : Matrix91) : Z :=
  (Z.of_nat (below_tolerance_run s 8) + 1)%Z.

(** Step 6 as written: the eigenvector is handled exactly as in the
    non-degenerate branch of step 5, rescaling by the square root of 3
    included. *)
Definition spec_expansion_body (nrm : Matrix91 -> Matrix91) (P : Matrix39)
  (U : Matrix99) (num_eigen_points c : Z) (st : SearchState) : SearchState :=
  let index := (9 - num_eigen_points - c)%Z in
  let e := vscale SQRT3 (column U (Z.to_nat index)) in
  refine_both_signs nrm P e st.

End SpecReadings.

(** ** Sample data

    A concrete instance of [Externals] and concrete inputs, used to run the
    definitions.  The tolerance and the singular values returned by the
    decomposition are parameters of the instance. *)

Definition unit9 (k : nat) : Matrix91 := fun i => if Nat.eqb i k then 1 else 0.
Definition Identity9 : Matrix99 := fun i j => if Nat.eqb i j then 1 else 0.

Definition sample_externals (sqp_tolerance : Q) (singular_values : list Q)
  : Externals := {|
  Hidden := list SQPSolution;
  SolveSQPSystem := fun _ => vscale 2 (unit9 0);
  NearestRotationMatrix_FOAM := fun v => v;
  NearestRotationMatrix_SVD := fun v => v;
  OrthogonalityError := fun v => squaredNorm9 v;
  InvertSymmetric3x3 := fun M => M;
  JacobiSVD := fun _ => (Identity9, vec_of_list singular_values);
  HandleSolution := fun sol m h => (m, sol :: h);
  DEFAULT_SQP_SQUARED_TOLERANCE := sqp_tolerance;
  DEFAULT_RANK_TOLERANCE := 1 # 10000000;
  DEFAULT_ORTHOGONALITY_SQUARED_ERROR_THRESHOLD := 1 # 100000000;
  SQRT3 := 17320508075688772 # 10000000000000000;
  parameters_ := mkParams (1001 # 1000) FOAM;
  indeterminate91 := fun _ => 0;
  indeterminate31 := fun _ => 0
|}.

Definition sample_members (E : Externals) (h : @Hidden E) : @Members E :=
  mkMembers [] 0%Z Zero2 Zero2 (fun _ => 0) None h.

(** Three correspondences with distinct points and unit weights. *)
Definition sample_features : list Vector2d :=
  [ mkV2 1 0; mkV2 0 1; mkV2 2 3 ].
Definition sample_world : list Vector3d :=
  [ mkV3 1 0 0; mkV3 0 1 0; mkV3 0 0 1 ].

(** Five image points against four world points. *)
Definition mismatched_features : list Vector2d :=
  [ mkV2 0 0; mkV2 1 0; mkV2 0 1; mkV2 1 1; mkV2 2 1 ].
Definition mismatched_world : list Vector3d :=
  [ mkV3 0 0 1; mkV3 1 0 1; mkV3 0 1 1; mkV3 1 1 2 ].

(** What the checks below look at in an accumulated form: the diagonal
    of the world-point second-moment block, the four image-side running
    sums, and the three world-side running sums. *)
Definition accum_summary (a : Accum) : list Q * list Q * list Q :=
  ( map (fun i => Omega_ a i i) [0; 1; 2]%nat,
    [sum_wx a; sum_wy a; sum_wx2_plus_wy2 a; sum_w a],
    [sum_X a; sum_Y a; sum_Z a] ).

(** Singular values in Eigen's order (largest first). *)
Definition six_small : list Q := [1; 1; 1; 0; 0; 0; 0; 0; 0].
Definition all_small : list Q := [0; 0; 0; 0; 0; 0; 0; 0; 0].
Definition one_small : list Q := [9; 8; 7; 6; 5; 4; 3; 2; 0].

(** ** Further notions used in the statements *)

(** The 24 entries of [Omega_] that the accumulation loop adds to
    (lines 112-131), in source order. *)
Definition accumulated_positions : list (nat * nat) :=
  [ (0,0); (0,1); (0,2); (1,1); (1,2); (2,2);
    (0,6); (0,7); (0,8); (1,7); (1,8); (2,8);
    (3,6); (3,7); (3,8); (4,7); (4,8); (5,8);
    (6,6); (6,7); (6,8); (7,7); (7,8); (8,8) ]%nat.

Definition is_accumulated (i j : nat) : bool :=
  existsb (fun p => (Nat.eqb (fst p) i && Nat.eqb (snd p) j)%bool)
    accumulated_positions.

(** The 21 entries of [QA] that the loop adds to (lines 135-139). *)
Definition QA_positions : list (nat * nat) :=
  [ (0,0); (0,1); (0,2); (0,6); (0,7); (0,8);
    (1,3); (1,4); (1,5); (1,6); (1,7); (1,8);
    (2,0); (2,1); (2,2); (2,3); (2,4); (2,5); (2,6); (2,7); (2,8) ]%nat.

Definition is_QA_position (i j : nat) : bool :=
  existsb (fun p => (Nat.eqb (fst p) i && Nat.eqb (snd p) j)%bool)
    QA_positions.

(** Number of events of a kind in a call log. *)
Definition count_events (kind : Event -> bool) (l : list Event) : nat :=
  length (filter kind l).

(** A solution reaches [HandleSolution] with its translation set to
    [P * r_hat]; other events carry no solution. *)
Definition translation_from (P : Matrix39) (ev : Event) : Prop :=
  match ev with
  | CallHandleSolution sol => t sol = mvmul9 P (r_hat sol)
  | _ => True
  end.

(** What one visit of a column adds to the log: at most two [RunSQP]
    calls, one or two [HandleSolution] calls, each on a solution whose
    translation is [P * r_hat]. *)
Definition column_visit (P : Matrix39) (evs : list Event) : Prop :=
  (count_events is_RunSQP evs <= 2)%nat /\
  (1 <= count_events is_HandleSolution evs <= 2)%nat /\
  Forall (translation_from P) evs.

(** Totals over [n] visits. *)
Definition visits (P : Matrix39) (n : nat) (evs : list Event) : Prop :=
  (count_events is_RunSQP evs <= 2 * n)%nat /\
  (n <= count_events is_HandleSolution evs <= 2 * n)%nat /\
  Forall (translation_from P) evs.

Section FurtherNotions.
Context {E : Externals}.

(** Singular values in decreasing order, as Eigen returns them. *)
Definition decreasing (s : Matrix91) : Prop :=
  forall k, (k < 8)%nat -> s (S k) <= s k.

(** How many of the first [n] entries are below the rank tolerance. *)
Definition count_below (s : Matrix91) (n : nat) : nat :=
  length (filter (fun k => Qltb (s k) DEFAULT_RANK_TOLERANCE) (seq 0 n)).

End FurtherNotions.

(** A 9x9 matrix with pairwise different entries. *)
Definition sample_matrix : Matrix99 :=
  fun i j => inject_Z (Z.of_nat (10 * i + j)).

(** Weights left over from an earlier, longer call. *)
Definition stale_weights : list Q := [2; 3; 5; 7; 11].

(** [INT_MAX] for a 32-bit [int], the type of the step counter. *)
Definition INT_MAX : Z := 2147483647.

(** Singular values with two entries below the tolerance. *)
Definition two_small : list Q := [9; 8; 7; 6; 5; 4; 3; 0; 0].

(** A second instance, to run both branches of the candidate loop: the
    residual is the square of the last entry, so a column whose last
    entry is zero is accepted directly; [HandleSolution] sets the running
    minimum to the squared norm of [r_hat] and files the solution. *)
Definition mixed_externals : Externals := {|
  Hidden := list SQPSolution;
  SolveSQPSystem := fun _ => vscale 2 (unit9 0);
  NearestRotationMatrix_FOAM := fun v => v;
  NearestRotationMatrix_SVD := fun v => v;
  OrthogonalityError := fun v => v 8%nat * v 8%nat;
  InvertSymmetric3x3 := fun M => M;
  JacobiSVD := fun _ => (Identity9, vec_of_list two_small);
  HandleSolution := fun sol m h => (squaredNorm9 (r_hat sol), sol :: h);
  DEFAULT_SQP_SQUARED_TOLERANCE := 1 # 10000000000;
  DEFAULT_RANK_TOLERANCE := 1 # 10000000;
  DEFAULT_ORTHOGONALITY_SQUARED_ERROR_THRESHOLD := 1 # 100000000;
  SQRT3 := 17320508075688772 # 10000000000000000;
  parameters_ := mkParams (1001 # 1000) FOAM;
  indeterminate91 := fun _ => 0;
  indeterminate31 := fun _ => 0
|}.

(** * Properties *)

(** ** Comparisons on doubles *)

Lemma Qltb_lt (x y : Q) : Qltb x y = true <-> x < y.
Proof.
  unfold Qltb. rewrite negb_true_iff. split; intro H.
  - apply Qnot_le_lt. intro Hle. apply Qle_bool_iff in Hle. congruence.
  - destruct (Qle_bool y x) eqn:Hb; [|reflexivity].
    apply Qle_bool_iff in Hb. exfalso. exact (Qlt_not_le _ _ H Hb).
Qed.

Lemma Qltb_ge (x y : Q) : Qltb x y = false <-> y <= x.
Proof.
  unfold Qltb. rewrite negb_false_iff. apply Qle_bool_iff.
Qed.

Lemma Qltb_compat (x x' y y' : Q) :
  x == x' -> y == y' -> Qltb x y = Qltb x' y'.
Proof.
  intros Hx Hy.
  destruct (Qltb x y) eqn:H1, (Qltb x' y') eqn:H2; try reflexivity.
  - apply Qltb_lt in H1. apply Qltb_ge in H2. rewrite Hx, Hy in H1.
    exfalso. exact (Qlt_not_le _ _ H1 H2).
  - apply Qltb_ge in H1. apply Qltb_lt in H2. rewrite <- Hx, <- Hy in H2.
    exfalso. exact (Qlt_not_le _ _ H2 H1).
Qed.

Lemma one_lt_DBL_MAX : 1 < DBL_MAX.
Proof. vm_compute. reflexivity. Qed.

(** ** Vectors, [at], [rbegin], [resize] *)

Lemma at_resize {A : Type} (n : nat) (d : A) (v : list A) (i : nat) :
  (i < n)%nat -> exists x, at_ (resize n d v) i = Ok x.
Proof.
  intro Hi. unfold at_.
  destruct (nth_error (resize n d v) i) as [x|] eqn:Hx.
  - exists x. reflexivity.
  - apply nth_error_None in Hx. unfold resize in Hx.
    rewrite length_app, length_firstn, repeat_length in Hx. lia.
Qed.

Lemma rbegin_nonempty {A : Type} (v : list A) :
  v <> [] -> exists x, rbegin v = Ok x.
Proof.
  induction v as [|a tl IH]; intro Hne; [congruence|].
  destruct tl as [|b tl'].
  - exists a. reflexivity.
  - destruct IH as [x Hx]; [discriminate|]. exists x. exact Hx.
Qed.

Lemma rbegin_app_last {A : Type} (v : list A) (x : A) :
  rbegin (v ++ [x]) = Ok x.
Proof.
  induction v as [|a tl IH]; [reflexivity|].
  simpl. destruct (tl ++ [x]) eqn:Heq.
  - destruct tl; discriminate.
  - exact IH.
Qed.

Lemma for_upto_ok {St : Type} (body : nat -> St -> result St)
  (count : nat) :
  forall i st,
    (forall j st', (i <= j < i + count)%nat -> exists st'', body j st' = Ok st'') ->
    exists st', for_upto body i count st = Ok st'.
Proof.
  induction count as [|c IH]; intros i st Hbody.
  - exists st. reflexivity.
  - simpl. destruct (Hbody i st) as [st1 H1]; [lia|].
    rewrite H1. simpl. apply IH. intros j st' Hj. apply Hbody. lia.
Qed.

Lemma for_upto_ext {St : Type} (body body' : nat -> St -> result St)
  (count : nat) :
  forall i st,
    (forall j st', (i <= j < i + count)%nat -> body j st' = body' j st') ->
    for_upto body i count st = for_upto body' i count st.
Proof.
  induction count as [|c IH]; intros i st Hbody; [reflexivity|].
  simpl. rewrite Hbody by lia.
  destruct (body' i st) as [st1|f]; [|reflexivity].
  simpl. apply IH. intros j st' Hj. apply Hbody. lia.
Qed.

(** Once the guard has passed and [weights_] has been resized, the
    accumulation loop neither throws nor dereferences an empty range. *)
Lemma accumulate_ok (w0 : list Q) (fp : list Vector2d) (wp : list Vector3d) :
  length wp = length fp -> (1 <= length wp)%nat ->
  exists a, accumulate (resize (length wp) 1 w0) fp wp = Ok a.
Proof.
  intros Hlen Hn. unfold accumulate. apply for_upto_ok.
  intros j st' Hj. unfold accumulate_body.
  destruct (at_resize (length wp) 1 w0 j) as [w Hw]; [lia|].
  destruct (rbegin_nonempty fp) as [m Hm].
  { intro Hfp. subst fp. simpl in Hlen. lia. }
  destruct (rbegin_nonempty wp) as [M HM].
  { intro Hwp. subst wp. simpl in Hn. lia. }
  rewrite Hw, Hm, HM. simpl. eauto.
Qed.

(** X16: the accumulated form is a function of the weights and of the last
    correspondence only: all earlier points can be replaced at will. *)
Lemma accumulate_ignores_earlier_points (w : list Q)
  (fp fp' : list Vector2d) (wp wp' : list Vector3d)
  (m : Vector2d) (M : Vector3d) :
  length wp = length wp' ->
  accumulate w (fp ++ [m]) (wp ++ [M]) = accumulate w (fp' ++ [m]) (wp' ++ [M]).
Proof.
  intro Hlen. unfold accumulate.
  rewrite !length_app, Hlen. apply for_upto_ext.
  intros j st' _. unfold accumulate_body.
  rewrite !rbegin_app_last. reflexivity.
Qed.

(** C1, evaluated on three correspondences with pairwise different
    points and unit weights: the source accumulates three copies of the
    term of the last correspondence (the image point and the world point
    are both read through [rbegin()]), the specification asks for the sum
    of the three different terms.  The two disagree already on the
    diagonal of the world-point second-moment block and on the running
    sums. *)
Theorem accumulate_reads_last_correspondence_only :
  (a <- accumulate [1; 1; 1] sample_features sample_world ;;
   Ok (accum_summary a))
  = Ok ([0; 0; 3], [6; 9; 39; 3], [0; 0; 3])
  /\
  (a <- accumulate_spec [1; 1; 1] sample_features sample_world ;;
   Ok (accum_summary a))
  = Ok ([1; 1; 1], [3; 4; 15; 3], [1; 1; 1])
  /\
  accumulate [1; 1; 1] sample_features sample_world
  <> accumulate_spec [1; 1; 1] sample_features sample_world.
Proof.
  split; [vm_compute; reflexivity|].
  split; [vm_compute; reflexivity|].
  intro Heq.
  assert (Hs : (a <- accumulate [1; 1; 1] sample_features sample_world ;;
                Ok (accum_summary a))
               = (a <- accumulate_spec [1; 1; 1] sample_features sample_world ;;
                  Ok (accum_summary a))).
  { rewrite Heq. reflexivity. }
  vm_compute in Hs. discriminate Hs.
Qed.

Section DriverProperties.
Context {E : Externals}.

(** C2: no path through [SQPnP] writes to the two output sequences;
    whatever the call does, the caller finds them as they were.  In
    particular a call that does not return [false] hands back no
    (rotation, translation) pair at all. *)
Theorem SQPnP_never_writes_outputs (this : Members)
  (fp : list Vector2d) (wp : list Vector3d)
  (rot : list Quaterniond) (tr : list Vector3d) :
  solution_rotation (SQPnP this fp wp rot tr) = rot /\
  solution_translation (SQPnP this fp wp rot tr) = tr.
Proof.
  unfold SQPnP.
  destruct (negb (length wp =? length fp)%nat || (length wp <? 3)%nat
            || (length fp <? 3)%nat)%bool; [split; reflexivity|].
  destruct (accumulate _ fp wp) as [a|f]; [|split; reflexivity].
  destruct (null_space_size _) as [n|f]; [|split; reflexivity].
  destruct (6 <? n)%Z; [split; reflexivity|].
  destruct (search _ _ _ _ _ _) as [st|f]; split; reflexivity.
Qed.

(** C3: when the two sequences differ in length, or either has fewer
    than three elements, the call returns [false] at once: no member is
    written, no external routine is called, and the output sequences are
    the ones passed in. *)
Theorem SQPnP_rejects_bad_lengths (this : Members)
  (fp : list Vector2d) (wp : list Vector3d)
  (rot : list Quaterniond) (tr : list Vector3d) :
  length wp <> length fp \/ (length wp < 3)%nat \/ (length fp < 3)%nat ->
  SQPnP this fp wp rot tr = mkCall ReturnFalse this [] rot tr.
Proof.
  intro Hbad. unfold SQPnP.
  assert (Hguard : (negb (length wp =? length fp)%nat
                    || (length wp <? 3)%nat
                    || (length fp <? 3)%nat)%bool = true).
  { destruct Hbad as [Hne | [Hw | Hf]].
    - apply Nat.eqb_neq in Hne. rewrite Hne. reflexivity.
    - apply Nat.ltb_lt in Hw. rewrite Hw. apply orb_true_iff. left.
      apply orb_true_r.
    - apply Nat.ltb_lt in Hf. rewrite Hf. apply orb_true_r. }
  rewrite Hguard. reflexivity.
Qed.

End DriverProperties.

(** C3 on five image points against four world points. *)
Lemma SQPnP_rejects_bad_lengths_witness :
  let E := sample_externals (1 # 10000000000) one_small in
  let this := sample_members E [] in
  (length mismatched_world <> length mismatched_features \/
   (length mismatched_world < 3)%nat \/ (length mismatched_features < 3)%nat)
  /\ SQPnP this mismatched_features mismatched_world [] []
     = mkCall ReturnFalse this [] [] [].
Proof.
  intros E this.
  assert (H : length mismatched_world <> length mismatched_features
              \/ (length mismatched_world < 3)%nat
              \/ (length mismatched_features < 3)%nat).
  { left. simpl. lia. }
  split; [exact H|].
  exact (SQPnP_rejects_bad_lengths this mismatched_features mismatched_world
           [] [] H).
Defined.

(** ** RunSQP *)

Section RunSQPProperties.
Context {E : Externals}.

Lemma Determinant9x1_vneg (v : Matrix91) :
  Determinant9x1 (vneg v) == - Determinant9x1 v.
Proof. unfold Determinant9x1, vneg. ring. Qed.

(** A step counter that passes the guard lies below the ceiling of the
    tolerance. *)
Lemma step_below_tolerance (step : Z) :
  Qltb (inject_Z step) DEFAULT_SQP_SQUARED_TOLERANCE = true ->
  (step < Qceiling DEFAULT_SQP_SQUARED_TOLERANCE)%Z.
Proof.
  intro H. apply Qltb_lt in H. rewrite Zlt_Qlt.
  eapply Qlt_le_trans; [exact H|]. apply Qle_ceiling.
Qed.

Lemma sqp_loop_eq (fuel : nat) (rv : Matrix91) (d : Q) (step : Z) :
  sqp_loop fuel rv d step =
  if Qltb DEFAULT_SQP_SQUARED_TOLERANCE d then
    if Qltb (inject_Z step) DEFAULT_SQP_SQUARED_TOLERANCE then
      match fuel with
      | O => Fault OutOfFuel
      | S fuel' =>
          sqp_loop fuel' (vadd rv (SolveSQPSystem rv))
            (squaredNorm9 (SolveSQPSystem rv)) (step + 1)%Z
      end
    else Ok (rv, (step + 1)%Z)
  else Ok (rv, step).
Proof. destruct fuel; reflexivity. Qed.

(** What the loop returns when it has fuel for the steps that remain:
    [k] updates were applied, and the counter advanced by [k], or by
    [k + 1] when the loop left through its second conjunct. *)
Lemma sqp_loop_run (fuel : nat) :
  forall (rv : Matrix91) (d : Q) (step : Z),
    (Qceiling DEFAULT_SQP_SQUARED_TOLERANCE - step <= Z.of_nat fuel)%Z ->
    exists (k : nat) (extra : Z),
      (k <= fuel)%nat /\
      (Z.of_nat k <= Z.max 0 (Qceiling DEFAULT_SQP_SQUARED_TOLERANCE - step))%Z /\
      (extra = 0 \/ extra = 1)%Z /\
      sqp_loop fuel rv d step = Ok (sqp_iterate k rv, (step + Z.of_nat k + extra)%Z).
Proof.
  induction fuel as [|fuel IH]; intros rv d step Hfuel.
  - simpl.
    destruct (Qltb DEFAULT_SQP_SQUARED_TOLERANCE d) eqn:Hd.
    + destruct (Qltb (inject_Z step) DEFAULT_SQP_SQUARED_TOLERANCE) eqn:Hs.
      * apply step_below_tolerance in Hs. simpl in Hfuel. lia.
      * exists 0%nat, 1%Z. simpl. repeat split; try lia.
        f_equal. f_equal. lia.
    + exists 0%nat, 0%Z. simpl. repeat split; try lia.
      f_equal. f_equal. lia.
  - simpl.
    destruct (Qltb DEFAULT_SQP_SQUARED_TOLERANCE d) eqn:Hd.
    + destruct (Qltb (inject_Z step) DEFAULT_SQP_SQUARED_TOLERANCE) eqn:Hs.
      * apply step_below_tolerance in Hs.
        destruct (IH (vadd rv (SolveSQPSystem rv))
                    (squaredNorm9 (SolveSQPSystem rv)) (step + 1)%Z)
          as (k & extra & Hk & Hb & Hx & Hrun); [lia|].
        exists (S k), extra. rewrite Hrun. simpl sqp_iterate.
        repeat split; try lia. f_equal. f_equal. lia.
      * exists 0%nat, 1%Z. simpl. repeat split; try lia.
        f_equal. f_equal. lia.
    + exists 0%nat, 0%Z. simpl. repeat split; try lia.
      f_equal. f_equal. lia.
Qed.

(** More fuel does not change a result. *)
Lemma sqp_loop_more_fuel (fuel : nat) :
  forall (rv : Matrix91) (d : Q) (step : Z) (res : Matrix91 * Z) (fuel' : nat),
    sqp_loop fuel rv d step = Ok res -> (fuel <= fuel')%nat ->
    sqp_loop fuel' rv d step = Ok res.
Proof.
  induction fuel as [|fuel IH]; intros rv d step res fuel' Hrun Hle.
  - destruct fuel' as [|fuel']; [exact Hrun|].
    simpl in *.
    destruct (Qltb DEFAULT_SQP_SQUARED_TOLERANCE d); [|exact Hrun].
    destruct (Qltb (inject_Z step) DEFAULT_SQP_SQUARED_TOLERANCE);
      [discriminate Hrun|exact Hrun].
  - destruct fuel' as [|fuel']; [lia|].
    simpl in *.
    destruct (Qltb DEFAULT_SQP_SQUARED_TOLERANCE d); [|exact Hrun].
    destruct (Qltb (inject_Z step) DEFAULT_SQP_SQUARED_TOLERANCE);
      [|exact Hrun].
    apply IH; [exact Hrun|lia].
Qed.

(** [RunSQP] is total: the loop ends within [sqp_iteration_cap] passes,
    and the value of [RunSQP] is what any larger fuel computes. *)
Lemma RunSQP_fuel_enough (nrm : Matrix91 -> Matrix91) (r0 : Matrix91)
  (fuel : nat) :
  (sqp_iteration_cap <= fuel)%nat ->
  RunSQP_fuel fuel nrm r0 = Ok (RunSQP nrm r0).
Proof.
  intro Hfuel. unfold RunSQP, RunSQP_fuel.
  destruct (sqp_loop_run sqp_iteration_cap r0 DBL_MAX 0%Z)
    as (k & extra & _ & _ & _ & Hrun).
  { unfold sqp_iteration_cap. lia. }
  rewrite (sqp_loop_more_fuel _ _ _ _ _ fuel Hrun Hfuel).
  rewrite Hrun. unfold bind. reflexivity.
Qed.

(** The shape of every returned solution: the loop result after [k]
    updates, possibly negated, with the counter in [num_iterations]. *)
Lemma RunSQP_shape (nrm : Matrix91 -> Matrix91) (r0 : Matrix91) :
  exists (k : nat) (extra : Z),
    (k <= sqp_iteration_cap)%nat /\ (extra = 0 \/ extra = 1)%Z /\
    RunSQP nrm r0
    = RunSQP_finish nrm (sqp_iterate k r0) (Z.of_nat k + extra)%Z.
Proof.
  destruct (sqp_loop_run sqp_iteration_cap r0 DBL_MAX 0%Z)
    as (k & extra & Hk & _ & Hx & Hrun).
  { unfold sqp_iteration_cap. lia. }
  exists k, extra. repeat split; [exact Hk|exact Hx|].
  unfold RunSQP, RunSQP_fuel. rewrite Hrun. reflexivity.
Qed.

Lemma RunSQP_finish_spec (nrm : Matrix91 -> Matrix91) (rv : Matrix91)
  (step : Z) :
  let sol := RunSQP_finish nrm rv step in
  0 <= Determinant9x1 (r sol) /\
  r_hat sol
  = (if Qltb (sqp_det_threshold parameters_) (Determinant9x1 (r sol))
     then nrm (r sol) else r sol) /\
  num_iterations sol = step /\
  r sol = (if Qltb (Determinant9x1 rv) 0 then vneg rv else rv).
Proof.
  unfold RunSQP_finish.
  destruct (Qltb (Determinant9x1 rv) 0) eqn:Hneg;
    cbn [r r_hat num_iterations].
  - apply Qltb_lt in Hneg.
    pose proof (Determinant9x1_vneg rv) as Hdet.
    repeat split.
    + rewrite Hdet. lra.
    + rewrite (Qltb_compat _ (sqp_det_threshold parameters_)
                 _ (- Determinant9x1 rv) (Qeq_refl _) Hdet).
      reflexivity.
  - apply Qltb_ge in Hneg. repeat split. exact Hneg.
Qed.

(** C7: the returned [r] has a non-negative determinant (the vector is
    the loop result, negated as a whole when its determinant was
    negative), and [r_hat] is the nearest-rotation projection of [r]
    when that determinant exceeds [sqp_det_threshold], and [r] itself
    otherwise. *)
Theorem RunSQP_sign_and_projection (nrm : Matrix91 -> Matrix91)
  (r0 : Matrix91) :
  let sol := RunSQP nrm r0 in
  0 <= Determinant9x1 (r sol) /\
  r_hat sol
  = (if Qltb (sqp_det_threshold parameters_) (Determinant9x1 (r sol))
     then nrm (r sol) else r sol) /\
  exists k : nat,
    r sol = (if Qltb (Determinant9x1 (sqp_iterate k r0)) 0
             then vneg (sqp_iterate k r0) else sqp_iterate k r0).
Proof.
  destruct (RunSQP_shape nrm r0) as (k & extra & _ & _ & Hshape).
  intro sol. subst sol. rewrite Hshape.
  destruct (RunSQP_finish_spec nrm (sqp_iterate k r0) (Z.of_nat k + extra)%Z)
    as (Hdet & Hhat & _ & Hr).
  split; [exact Hdet|]. split; [exact Hhat|].
  exists k. exact Hr.
Qed.

(** The loop never runs more passes than there are non-negative
    integers below the tolerance, and the counter it reports is the
    number of passes or one more. *)
Lemma RunSQP_iterations_bounded (nrm : Matrix91 -> Matrix91) (r0 : Matrix91) :
  (0 <= num_iterations (RunSQP nrm r0)
   <= Z.max 0 (Qceiling DEFAULT_SQP_SQUARED_TOLERANCE) + 1)%Z.
Proof.
  destruct (RunSQP_shape nrm r0) as (k & extra & Hk & Hx & Hshape).
  rewrite Hshape.
  destruct (RunSQP_finish_spec nrm (sqp_iterate k r0) (Z.of_nat k + extra)%Z)
    as (_ & _ & Hn & _).
  rewrite Hn. unfold sqp_iteration_cap in Hk. lia.
Qed.

(** C5: with a tolerance in (0, 1] (the loop guard compares the step
    counter with the tolerance itself), a first correction whose squared
    norm is above the tolerance ends the loop after that single pass:
    the guard is re-evaluated, [step++ < TOL] compares 1 with the
    tolerance and fails, and the counter has by then advanced to 2.  The
    cap on the passes is the tolerance value, and the recorded count is
    one more than the passes made. *)
Theorem RunSQP_cap_is_the_tolerance (nrm : Matrix91 -> Matrix91)
  (r0 : Matrix91) :
  0 < DEFAULT_SQP_SQUARED_TOLERANCE ->
  DEFAULT_SQP_SQUARED_TOLERANCE <= 1 ->
  DEFAULT_SQP_SQUARED_TOLERANCE < squaredNorm9 (SolveSQPSystem r0) ->
  RunSQP nrm r0 = RunSQP_finish nrm (vadd r0 (SolveSQPSystem r0)) 2%Z /\
  num_iterations (RunSQP nrm r0) = 2%Z.
Proof.
  intros Hpos Hle Hbig.
  assert (Hrun : forall fuel,
             sqp_loop (S fuel) r0 DBL_MAX 0%Z
             = Ok (vadd r0 (SolveSQPSystem r0), 2%Z)).
  { intro fuel.
    assert (H1 : Qltb DEFAULT_SQP_SQUARED_TOLERANCE DBL_MAX = true).
    { apply Qltb_lt. pose proof one_lt_DBL_MAX. lra. }
    assert (H2 : Qltb (inject_Z 0) DEFAULT_SQP_SQUARED_TOLERANCE = true).
    { apply Qltb_lt. exact Hpos. }
    assert (H3 : Qltb DEFAULT_SQP_SQUARED_TOLERANCE
                   (squaredNorm9 (SolveSQPSystem r0)) = true).
    { apply Qltb_lt. exact Hbig. }
    assert (H4 : Qltb (inject_Z (0 + 1)) DEFAULT_SQP_SQUARED_TOLERANCE = false).
    { apply Qltb_ge. exact Hle. }
    rewrite sqp_loop_eq, H1, H2.
    rewrite sqp_loop_eq, H3, H4. reflexivity. }
  assert (Hsol : RunSQP nrm r0
                 = RunSQP_finish nrm (vadd r0 (SolveSQPSystem r0)) 2%Z).
  { pose proof (RunSQP_fuel_enough nrm r0 (S sqp_iteration_cap)) as Hen.
    unfold RunSQP_fuel in Hen. rewrite Hrun in Hen.
    assert (Hle' : (sqp_iteration_cap <= S sqp_iteration_cap)%nat) by lia.
    specialize (Hen Hle'). unfold bind in Hen.
    injection Hen as Heq. symmetry. exact Heq. }
  split; [exact Hsol|].
  rewrite Hsol.
  destruct (RunSQP_finish_spec nrm (vadd r0 (SolveSQPSystem r0)) 2%Z)
    as (_ & _ & Hn & _).
  exact Hn.
Qed.

End RunSQPProperties.

(** C5 run on the sample instance with tolerance 1e-10. *)
Lemma RunSQP_cap_is_the_tolerance_witness :
  let E := sample_externals (1 # 10000000000) one_small in
  0 < DEFAULT_SQP_SQUARED_TOLERANCE /\
  DEFAULT_SQP_SQUARED_TOLERANCE <= 1 /\
  DEFAULT_SQP_SQUARED_TOLERANCE < squaredNorm9 (SolveSQPSystem (unit9 1)) /\
  num_iterations (RunSQP (fun v => v) (unit9 1)) = 2%Z.
Proof.
  intro E.
  assert (H1 : 0 < DEFAULT_SQP_SQUARED_TOLERANCE) by (vm_compute; reflexivity).
  assert (H2 : DEFAULT_SQP_SQUARED_TOLERANCE <= 1)
    by (vm_compute; discriminate).
  assert (H3 : DEFAULT_SQP_SQUARED_TOLERANCE
               < squaredNorm9 (SolveSQPSystem (unit9 1)))
    by (vm_compute; reflexivity).
  split; [exact H1|]. split; [exact H2|]. split; [exact H3|].
  exact (proj2 (RunSQP_cap_is_the_tolerance (fun v => v) (unit9 1) H1 H2 H3)).
Defined.

(** ** Null-space dimension *)

Section NullSpaceProperties.
Context {E : Externals}.

Lemma s_at_inside (s : Matrix91) (i : Z) :
  (0 <= i <= 8)%Z -> s_at s i = Ok (s (Z.to_nat i)).
Proof.
  intro Hi. unfold s_at.
  replace ((0 <=? i)%Z && (i <=? 8)%Z)%bool with true; [reflexivity|].
  symmetry. apply andb_true_iff. split; apply Z.leb_le; lia.
Qed.

Lemma s_at_outside (s : Matrix91) (i : Z) :
  (i < 0 \/ 8 < i)%Z -> s_at s i = Fault (IndexOutOfBounds i).
Proof.
  intro Hi. unfold s_at.
  replace ((0 <=? i)%Z && (i <=? 8)%Z)%bool with false; [reflexivity|].
  symmetry. apply andb_false_iff.
  destruct Hi; [left; apply Z.leb_gt | right; apply Z.leb_gt]; lia.
Qed.

Lemma below_tolerance_run_bound (s : Matrix91) (k : nat) :
  (below_tolerance_run s k <= S k)%nat.
Proof.
  induction k as [|k IH]; simpl.
  - destruct (Qltb (s 0%nat) DEFAULT_RANK_TOLERANCE); lia.
  - destruct (Qltb (s (S k)) DEFAULT_RANK_TOLERANCE); lia.
Qed.

(** The run is maximal exactly when every entry up to [k] is below the
    tolerance. *)
Lemma below_tolerance_run_full (s : Matrix91) (k : nat) :
  below_tolerance_run s k = S k <->
  forall j, (j <= k)%nat -> s j < DEFAULT_RANK_TOLERANCE.
Proof.
  induction k as [|k IH]; simpl.
  - destruct (Qltb (s 0%nat) DEFAULT_RANK_TOLERANCE) eqn:H0.
    + split; [|reflexivity]. intros _ j Hj.
      replace j with 0%nat by lia. apply Qltb_lt. exact H0.
    + split; [discriminate|]. intro Hall.
      apply Qltb_ge in H0. specialize (Hall 0%nat (le_n _)).
      exfalso. exact (Qlt_not_le _ _ Hall H0).
  - destruct (Qltb (s (S k)) DEFAULT_RANK_TOLERANCE) eqn:Hk.
    + split.
      * intros Hrun j Hj. injection Hrun as Hrun.
        destruct (Nat.eq_dec j (S k)) as [->|Hne].
        -- apply Qltb_lt. exact Hk.
        -- apply IH; [exact Hrun|lia].
      * intro Hall. f_equal. apply IH. intros j Hj. apply Hall. lia.
    + split; [discriminate|]. intro Hall.
      apply Qltb_ge in Hk. specialize (Hall (S k) (le_n _)).
      exfalso. exact (Qlt_not_le _ _ Hall Hk).
Qed.

(** The scan started with the counter at [7 - k] (so that the next read
    is [s_[k]]): it stops inside the array with the counter advanced by
    the run, or runs off its lower end. *)
Lemma null_space_scan_run (s : Matrix91) (k : nat) :
  forall fuel : nat,
    (k <= 7)%nat -> (S k <= fuel)%nat ->
    null_space_scan fuel s (7 - Z.of_nat k)%Z
    = if (below_tolerance_run s k <=? k)%nat
      then Ok (7 - Z.of_nat k + Z.of_nat (below_tolerance_run s k))%Z
      else Fault (IndexOutOfBounds (-1)).
Proof.
  induction k as [|k IH]; intros fuel Hk Hfuel.
  - destruct fuel as [|fuel]; [lia|].
    cbn [null_space_scan below_tolerance_run].
    rewrite s_at_inside by lia. unfold bind.
    replace (Z.to_nat (7 - (7 - Z.of_nat 0))) with 0%nat by lia.
    destruct (Qltb (s 0%nat) DEFAULT_RANK_TOLERANCE).
    + destruct fuel; cbn [null_space_scan];
        rewrite s_at_outside by lia; reflexivity.
    + simpl. reflexivity.
  - destruct fuel as [|fuel]; [lia|].
    cbn [null_space_scan below_tolerance_run].
    rewrite s_at_inside by lia. unfold bind.
    replace (Z.to_nat (7 - (7 - Z.of_nat (S k)))) with (S k) by lia.
    destruct (Qltb (s (S k)) DEFAULT_RANK_TOLERANCE).
    + replace (7 - Z.of_nat (S k) + 1)%Z with (7 - Z.of_nat k)%Z by lia.
      rewrite IH by lia.
      change (S (below_tolerance_run s k) <=? S k)%nat
        with (below_tolerance_run s k <=? k)%nat.
      destruct (below_tolerance_run s k <=? k)%nat; [|reflexivity].
      f_equal. lia.
    + change (0 <=? S k)%nat with true. cbv iota. f_equal. lia.
Qed.

Lemma null_space_size_run (s : Matrix91) :
  null_space_size s
  = if (below_tolerance_run s 7 <=? 7)%nat
    then Ok (Z.of_nat (below_tolerance_run s 7) + 1)%Z
    else Fault (IndexOutOfBounds (-1)).
Proof.
  unfold null_space_size.
  assert (H : (7 <= 7)%nat /\ (8 <= 9)%nat) by lia.
  pose proof (null_space_scan_run s 7 9 (proj1 H) (proj2 H)) as Hscan.
  change (7 - Z.of_nat 7)%Z with 0%Z in Hscan. rewrite Hscan.
  destruct (below_tolerance_run s 7 <=? 7)%nat; [|reflexivity].
  unfold bind. f_equal; lia.
Qed.

End NullSpaceProperties.

(** ** The two search loops *)

Lemma fold_left_ext {A B : Type} (f g : A -> B -> A) (l : list B) :
  (forall a b, f a b = g a b) ->
  forall a, fold_left f l a = fold_left g l a.
Proof.
  intro Hfg. induction l as [|b l IH]; intro a; [reflexivity|].
  simpl. rewrite Hfg. apply IH.
Qed.

Lemma fold_left_seq_shift {A : Type} (f : A -> nat -> A) (n : nat) :
  forall (start : nat) (a : A),
    fold_left f (seq (S start) n) a
    = fold_left (fun x k => f x (S k)) (seq start n) a.
Proof.
  induction n as [|n IH]; intros start a; [reflexivity|].
  simpl. apply IH.
Qed.

Section SearchProperties.
Context {E : Externals}.
Variable nrm : Matrix91 -> Matrix91.
Variable P : Matrix39.
Variable U : Matrix99.

Lemma handle_log (sol : SQPSolution) (st : SearchState) :
  log (handle sol st) = log st ++ [CallHandleSolution sol].
Proof. reflexivity. Qed.

Lemma refine_both_signs_log (e : Matrix91) (st : SearchState) :
  log (refine_both_signs nrm P e st) = log st ++ two_sign_events nrm P e.
Proof.
  unfold refine_both_signs, refine_from, handle, record, two_sign_events.
  cbn [log]. rewrite <- !app_assoc. reflexivity.
Qed.

(** The [for] loop with [n] columns left to visit. *)
Lemma candidate_loop_run (n : nat) :
  forall (fuel : nat) (i : Z) (st : SearchState),
    (n <= fuel)%nat -> i = (9 - Z.of_nat n)%Z ->
    candidate_loop fuel nrm P U i st
    = Ok (fold_left
            (fun st k => candidate_body nrm P U (i + Z.of_nat k)%Z st)
            (seq 0 n) st).
Proof.
  induction n as [|n IH]; intros fuel i st Hfuel Hi.
  - assert (Hlt : (i <? 9)%Z = false) by (apply Z.ltb_ge; lia).
    destruct fuel; simpl; rewrite Hlt; reflexivity.
  - destruct fuel as [|fuel]; [lia|].
    assert (Hlt : (i <? 9)%Z = true) by (apply Z.ltb_lt; lia).
    cbn [candidate_loop]. rewrite Hlt.
    rewrite (IH fuel (i + 1)%Z) by lia.
    f_equal. cbn [seq fold_left].
    rewrite fold_left_seq_shift.
    replace (i + Z.of_nat 0)%Z with i by lia.
    apply fold_left_ext. intros a k. f_equal. lia.
Qed.

Variable s : Matrix91.
Variable num_eigen_points : Z.

Lemma expansion_after_front (k : nat) :
  forall (c : Z) (st : SearchState),
    expansion_after nrm P U num_eigen_points c (S k) st
    = expansion_after nrm P U num_eigen_points (c + 1) k
        (expansion_body nrm P U num_eigen_points c st).
Proof.
  induction k as [|k IH]; intros c st.
  - cbn [expansion_after]. f_equal. simpl. lia.
  - change (expansion_after nrm P U num_eigen_points c (S (S k)) st)
      with (expansion_body nrm P U num_eigen_points (c + Z.of_nat (S k))
              (expansion_after nrm P U num_eigen_points c (S k) st)).
    rewrite IH. cbn [expansion_after]. f_equal. lia.
Qed.

(** The [while] loop entered with the next index equal to [idx]: it makes
    [k] passes, the guard holding before each of them and failing after
    the last, and no index it reads leaves the array. *)
Lemma expansion_loop_run (idx : nat) :
  forall (fuel : nat) (c : Z) (st : SearchState),
    (9 - num_eigen_points - c = Z.of_nat idx)%Z ->
    (idx <= 8)%nat -> (idx <= fuel)%nat ->
    exists k : nat,
      (k <= idx)%nat /\
      expansion_loop fuel nrm P U s num_eigen_points c st
      = Ok (expansion_after nrm P U num_eigen_points c k st) /\
      (forall j : nat, (j < k)%nat ->
         expansion_continues s (9 - num_eigen_points - c - Z.of_nat j)%Z
           (expansion_after nrm P U num_eigen_points c j st) = true) /\
      expansion_continues s (9 - num_eigen_points - c - Z.of_nat k)%Z
        (expansion_after nrm P U num_eigen_points c k st) = false.
Proof.
  induction idx as [|idx IH]; intros fuel c st Hidx H8 Hfuel.
  - exists 0%nat.
    assert (Hc : expansion_continues s (9 - num_eigen_points - c) st = false).
    { unfold expansion_continues. rewrite Hidx. apply andb_false_r. }
    split; [lia|]. split.
    + destruct fuel; cbn [expansion_loop]; rewrite s_at_inside by lia;
        unfold bind; fold (expansion_continues s (9 - num_eigen_points - c) st);
        rewrite Hc; reflexivity.
    + split; [intros j Hj; lia|].
      cbn [expansion_after].
      replace (9 - num_eigen_points - c - Z.of_nat 0)%Z
        with (9 - num_eigen_points - c)%Z by lia.
      exact Hc.
  - destruct fuel as [|fuel]; [lia|].
    cbn [expansion_loop]. rewrite s_at_inside by lia. unfold bind.
    fold (expansion_continues s (9 - num_eigen_points - c) st).
    destruct (expansion_continues s (9 - num_eigen_points - c) st) eqn:Hc.
    + destruct (IH fuel (c + 1)%Z
                  (expansion_body nrm P U num_eigen_points c st))
        as (k & Hk & Hrun & Hbefore & Hafter); try lia.
      exists (S k). split; [lia|]. split.
      * rewrite Hrun. rewrite expansion_after_front. reflexivity.
      * split.
        -- intros j Hj. destruct j as [|j].
           ++ cbn [expansion_after].
              replace (9 - num_eigen_points - c - Z.of_nat 0)%Z
                with (9 - num_eigen_points - c)%Z by lia.
              exact Hc.
           ++ rewrite expansion_after_front.
              replace (9 - num_eigen_points - c - Z.of_nat (S j))%Z
                with (9 - num_eigen_points - (c + 1) - Z.of_nat j)%Z by lia.
              apply Hbefore. lia.
        -- rewrite expansion_after_front.
           replace (9 - num_eigen_points - c - Z.of_nat (S k))%Z
             with (9 - num_eigen_points - (c + 1) - Z.of_nat k)%Z by lia.
           exact Hafter.
    + exists 0%nat. split; [lia|]. split; [reflexivity|].
      split; [intros j Hj; lia|].
      cbn [expansion_after].
      replace (9 - num_eigen_points - c - Z.of_nat 0)%Z
        with (9 - num_eigen_points - c)%Z by lia.
      exact Hc.
Qed.

End SearchProperties.

(** ** The driver as a whole *)

Section SolverProperties.
Context {E : Externals}.

(** With a null-space size between 1 and 6 the search finishes: neither
    loop runs out of fuel and no read of [s_] leaves the array. *)
Lemma search_ok (nrm : Matrix91 -> Matrix91) (P : Matrix39) (U : Matrix99)
  (s : Matrix91) (n : Z) (h : Hidden) :
  (1 <= n <= 6)%Z -> exists st, search nrm P U s n h = Ok st.
Proof.
  intro Hn. unfold search.
  assert (Hpos : (0 <? n)%Z = true) by (apply Z.ltb_lt; lia).
  rewrite Hpos.
  rewrite (candidate_loop_run nrm P U (Z.to_nat n) 9) by lia.
  unfold bind.
  destruct (expansion_loop_run nrm P U s n (Z.to_nat (8 - n)) 9 1%Z
              (fold_left
                 (fun st k => candidate_body nrm P U (9 - n + Z.of_nat k)%Z st)
                 (seq 0 (Z.to_nat n)) (mkSearch DBL_MAX h [])))
    as (k & _ & Hrun & _); try lia.
  rewrite Hrun. eauto.
Qed.

Lemma null_space_size_positive (s : Matrix91) (n : Z) :
  null_space_size s = Ok n -> (1 <= n)%Z.
Proof.
  rewrite null_space_size_run.
  destruct (below_tolerance_run s 7 <=? 7)%nat; [|discriminate].
  intro H. injection H as H. lia.
Qed.

Lemma singular_values_ok (w0 : list Q) (fp : list Vector2d)
  (wp : list Vector3d) :
  length wp = length fp -> (3 <= length wp)%nat ->
  exists s, singular_values (resize (length wp) 1 w0) fp wp = Ok s.
Proof.
  intros Hlen Hn. unfold singular_values.
  destruct (accumulate_ok w0 fp wp Hlen) as [a Ha]; [lia|].
  rewrite Ha. unfold bind. eauto.
Qed.

(** How a call on well-formed input ends, in terms of the singular
    values it computed. *)
Lemma SQPnP_outcome (this : Members) (fp : list Vector2d)
  (wp : list Vector3d) (rot : list Quaterniond) (tr : list Vector3d)
  (s : Matrix91) :
  length wp = length fp -> (3 <= length wp)%nat ->
  singular_values (resize (length wp) 1 (weights_ this)) fp wp = Ok s ->
  outcome (SQPnP this fp wp rot tr)
  = match null_space_size s with
    | Fault f => Faulted f
    | Ok n => if (6 <? n)%Z then ReturnFalse else NoReturnValue
    end.
Proof.
  intros Hlen Hn Hs. unfold SQPnP.
  assert (Hguard : (negb (length wp =? length fp)%nat
                    || (length wp <? 3)%nat
                    || (length fp <? 3)%nat)%bool = false).
  { rewrite <- Hlen, Nat.eqb_refl.
    assert (H3 : (length wp <? 3)%nat = false) by (apply Nat.ltb_ge; lia).
    rewrite H3. reflexivity. }
  rewrite Hguard.
  unfold singular_values in Hs.
  destruct (accumulate (resize (length wp) 1 (weights_ this)) fp wp)
    as [a|f]; [|discriminate Hs].
  assert (Hs' : snd (JacobiSVD (snd (complete_form a))) = s)
    by (unfold bind in Hs; congruence).
  rewrite Hs'.
  destruct (null_space_size s) as [n|f] eqn:Hsize; [|reflexivity].
  destruct (6 <? n)%Z eqn:H6; [reflexivity|].
  destruct (search_ok
              (select_nearest_rotation (nearest_rotation_method parameters_))
              (fst (complete_form a)) (fst (JacobiSVD (snd (complete_form a))))
              s n (object_state this)) as [st Hst].
  { apply null_space_size_positive in Hsize. apply Z.ltb_ge in H6. lia. }
  cbn [object_state]. rewrite Hst. reflexivity.
Qed.

(** C4, as the source has it: the scan tests the entries of [s_] from
    index 7 downwards (the second-smallest singular value first) and
    counts those below the rank tolerance up to the first that is not;
    the null-space size is that count plus one, the one standing for
    index 8, which is never compared with the tolerance.  Provided the
    scan meets an entry that is not below the tolerance, a call whose
    length checks passed returns [false] exactly when this size exceeds
    6. *)
Theorem null_space_size_counts_from_index_7 (this : Members)
  (fp : list Vector2d) (wp : list Vector3d)
  (rot : list Quaterniond) (tr : list Vector3d) (s : Matrix91) :
  length wp = length fp -> (3 <= length wp)%nat ->
  singular_values (resize (length wp) 1 (weights_ this)) fp wp = Ok s ->
  (below_tolerance_run s 7 <= 7)%nat ->
  null_space_size s = Ok (Z.of_nat (below_tolerance_run s 7) + 1)%Z /\
  (outcome (SQPnP this fp wp rot tr) = ReturnFalse <->
   (6 < Z.of_nat (below_tolerance_run s 7) + 1)%Z).
Proof.
  intros Hlen Hn Hs Hrun.
  assert (Hsize : null_space_size s
                  = Ok (Z.of_nat (below_tolerance_run s 7) + 1)%Z).
  { rewrite null_space_size_run.
    apply Nat.leb_le in Hrun. rewrite Hrun. reflexivity. }
  split; [exact Hsize|].
  rewrite (SQPnP_outcome this fp wp rot tr s Hlen Hn Hs), Hsize.
  destruct (6 <? Z.of_nat (below_tolerance_run s 7) + 1)%Z eqn:H6.
  - apply Z.ltb_lt in H6. split; [intros _; exact H6|reflexivity].
  - apply Z.ltb_ge in H6. split; [discriminate|lia].
Qed.

(** C10, the counting loop: when the eight entries [s_[0..7]] are all
    below the rank tolerance the loop does not stop at index 0; its
    ninth read is [s_[-1]].  A call whose length checks passed ends in
    that read. *)
Theorem null_space_scan_reads_below_index_0 (this : Members)
  (fp : list Vector2d) (wp : list Vector3d)
  (rot : list Quaterniond) (tr : list Vector3d) (s : Matrix91) :
  length wp = length fp -> (3 <= length wp)%nat ->
  singular_values (resize (length wp) 1 (weights_ this)) fp wp = Ok s ->
  (forall j, (j <= 7)%nat -> s j < DEFAULT_RANK_TOLERANCE) ->
  null_space_size s = Fault (IndexOutOfBounds (-1)) /\
  outcome (SQPnP this fp wp rot tr) = Faulted (IndexOutOfBounds (-1)).
Proof.
  intros Hlen Hn Hs Hall.
  assert (Hsize : null_space_size s = Fault (IndexOutOfBounds (-1))).
  { rewrite null_space_size_run.
    apply below_tolerance_run_full in Hall. rewrite Hall. reflexivity. }
  split; [exact Hsize|].
  rewrite (SQPnP_outcome this fp wp rot tr s Hlen Hn Hs), Hsize.
  reflexivity.
Qed.

(** The other half of C10: in the adaptive-expansion loop, entered with
    1 to 6 eigen points, every read of [s_] is inside the array. *)
Lemma expansion_loop_reads_inside (nrm : Matrix91 -> Matrix91)
  (P : Matrix39) (U : Matrix99) (s : Matrix91) (num_eigen_points : Z)
  (st : SearchState) :
  (1 <= num_eigen_points <= 6)%Z ->
  exists st', expansion_loop 9 nrm P U s num_eigen_points 1%Z st = Ok st'.
Proof.
  intro Hn.
  destruct (expansion_loop_run nrm P U s num_eigen_points
              (Z.to_nat (8 - num_eigen_points)) 9 1%Z st)
    as (k & _ & Hrun & _); try lia.
  rewrite Hrun. eauto.
Qed.

(** C9, as the source has it: entered after the candidate loop with 1 to
    6 eigen points, the expansion loop makes [k] passes over the columns
    [8 - num_eigen_points], [7 - num_eigen_points], ... (indices just
    below the candidate block, in decreasing order); its guard (running
    minimum above three times [s_] at the next index, and that index
    positive) holds before each pass and fails after the last.  A pass
    takes the column as it is, without the [SQRT3] rescaling, and
    refines it in both signs: projection, [RunSQP], translation and
    [HandleSolution] for [e] and then for [-e]. *)
Theorem expansion_visits_raw_columns (nrm : Matrix91 -> Matrix91)
  (P : Matrix39) (U : Matrix99) (s : Matrix91) (num_eigen_points : Z)
  (st : SearchState) :
  (1 <= num_eigen_points <= 6)%Z ->
  exists k : nat,
    (Z.of_nat k <= 8 - num_eigen_points)%Z /\
    expansion_loop 9 nrm P U s num_eigen_points 1%Z st
    = Ok (expansion_after nrm P U num_eigen_points 1 k st) /\
    (forall j : nat, (j < k)%nat ->
       expansion_continues s (8 - num_eigen_points - Z.of_nat j)%Z
         (expansion_after nrm P U num_eigen_points 1 j st) = true) /\
    expansion_continues s (8 - num_eigen_points - Z.of_nat k)%Z
      (expansion_after nrm P U num_eigen_points 1 k st) = false /\
    (forall j : nat,
       let e := column U (Z.to_nat (8 - num_eigen_points - Z.of_nat j)) in
       let before := expansion_after nrm P U num_eigen_points 1 j st in
       expansion_after nrm P U num_eigen_points 1 (S j) st
       = refine_both_signs nrm P e before /\
       log (expansion_after nrm P U num_eigen_points 1 (S j) st)
       = log before ++ two_sign_events nrm P e).
Proof.
  intro Hn.
  destruct (expansion_loop_run nrm P U s num_eigen_points
              (Z.to_nat (8 - num_eigen_points)) 9 1%Z st)
    as (k & Hk & Hrun & Hbefore & Hafter); try lia.
  exists k. split; [lia|]. split; [exact Hrun|]. split.
  - intros j Hj.
    replace (8 - num_eigen_points - Z.of_nat j)%Z
      with (9 - num_eigen_points - 1 - Z.of_nat j)%Z by lia.
    apply Hbefore. exact Hj.
  - split.
    + replace (8 - num_eigen_points - Z.of_nat k)%Z
        with (9 - num_eigen_points - 1 - Z.of_nat k)%Z by lia.
      exact Hafter.
    + intros j e before.
      assert (Hbody : expansion_after nrm P U num_eigen_points 1 (S j) st
                      = refine_both_signs nrm P e before).
      { cbn [expansion_after]. unfold expansion_body. subst e before.
        replace (9 - num_eigen_points - (1 + Z.of_nat j))%Z
          with (8 - num_eigen_points - Z.of_nat j)%Z by lia.
        reflexivity. }
      split; [exact Hbody|].
      rewrite Hbody. apply refine_both_signs_log.
Qed.

End SolverProperties.

(** ** The success path

    On well-formed input whose scan stops with at most five entries
    counted, the search runs to completion and the call ends at the
    closing brace: no value is returned. *)

Section SuccessPath.
Context {E : Externals}.

Lemma SQPnP_success_has_no_return (this : Members) (fp : list Vector2d)
  (wp : list Vector3d) (rot : list Quaterniond) (tr : list Vector3d)
  (s : Matrix91) :
  length wp = length fp -> (3 <= length wp)%nat ->
  singular_values (resize (length wp) 1 (weights_ this)) fp wp = Ok s ->
  (below_tolerance_run s 7 <= 5)%nat ->
  outcome (SQPnP this fp wp rot tr) = NoReturnValue.
Proof.
  intros Hlen Hn Hs Hrun.
  rewrite (SQPnP_outcome this fp wp rot tr s Hlen Hn Hs).
  rewrite null_space_size_run.
  assert (H7 : (below_tolerance_run s 7 <=? 7)%nat = true)
    by (apply Nat.leb_le; lia).
  rewrite H7.
  assert (H6 : (6 <? Z.of_nat (below_tolerance_run s 7) + 1)%Z = false)
    by (apply Z.ltb_ge; lia).
  rewrite H6. reflexivity.
Qed.

End SuccessPath.

(** ** Loop invariants *)

Lemma for_upto_invariant {St : Type} (I : St -> Prop)
  (body : nat -> St -> result St) (count : nat) :
  (forall j st st', body j st = Ok st' -> I st -> I st') ->
  forall i st st', for_upto body i count st = Ok st' -> I st -> I st'.
Proof.
  intro Hbody. induction count as [|c IH]; intros i st st' Hrun Hst.
  - simpl in Hrun. injection Hrun as <-. exact Hst.
  - simpl in Hrun. destruct (body i st) as [st1|f] eqn:H1; [|discriminate].
    simpl in Hrun. apply (IH (S i) st1 st' Hrun). exact (Hbody i st st1 H1 Hst).
Qed.

(** ** Runs on the sample data *)

(** A run on three well-formed correspondences: the search is carried
    out (eight columns are refined in both signs, sixteen solutions
    reach [HandleSolution]), control reaches the end of the function
    without a [return], and the two output sequences are still empty. *)
Example SQPnP_sample_run :
  let E := sample_externals (1 # 10000000000) one_small in
  let res := SQPnP (sample_members E []) sample_features sample_world [] [] in
  outcome res = NoReturnValue /\
  length (filter is_HandleSolution (search_log res)) = 16%nat /\
  solution_rotation res = [] /\
  solution_translation res = [].
Proof.
  cbv zeta. split; [vm_compute; reflexivity|].
  split; [vm_compute; reflexivity|].
  split; vm_compute; reflexivity.
Qed.

(** With the tolerance set to 5/2 the same loop makes three passes (the
    step counter takes the values 0, 1, 2 below the tolerance) and
    reports four. *)
Example RunSQP_cap_moves_with_tolerance :
  let E := sample_externals (5 # 2) one_small in
  let sol := RunSQP (fun v => v) (unit9 1) in
  num_iterations sol = 4%Z /\
  map (r sol) (seq 0 9) = [6; 1; 0; 0; 0; 0; 0; 0; 0] /\
  sqp_iteration_cap = 3%nat.
Proof.
  cbv zeta. repeat split; vm_compute; reflexivity.
Qed.

(** C4 as stated fails on singular values with six entries below the
    tolerance (the generic case for three correspondences): counting
    from the smallest entry and adding one gives 7, which exceeds 6;
    the source counts five entries from index 7 down, adds one, gets 6,
    and does not return [false].  With a single entry below the
    tolerance the two counts are 2 and 1. *)
Lemma null_space_size_is_not_the_spec_count :
  let E := sample_externals (1 # 10000000000) six_small in
  let s := vec_of_list six_small in
  let s1 := vec_of_list one_small in
  spec_null_space_size s = 7%Z /\
  null_space_size s = Ok 6%Z /\
  null_space_size s <> Ok (spec_null_space_size s) /\
  singular_values (resize 3 1 []) sample_features sample_world = Ok s /\
  outcome (SQPnP (sample_members E []) sample_features sample_world [] [])
  = NoReturnValue /\
  spec_null_space_size s1 = 2%Z /\
  null_space_size s1 = Ok 1%Z.
Proof.
  cbv zeta. split; [vm_compute; reflexivity|].
  split; [vm_compute; reflexivity|].
  split; [vm_compute; discriminate|].
  split; [vm_compute; reflexivity|].
  split; [vm_compute; reflexivity|].
  split; vm_compute; reflexivity.
Qed.

(** C4 on the same singular values. *)
Lemma null_space_size_counts_from_index_7_witness :
  let E := sample_externals (1 # 10000000000) six_small in
  let this := sample_members E [] in
  let s := vec_of_list six_small in
  length sample_world = length sample_features /\
  (3 <= length sample_world)%nat /\
  singular_values (resize (length sample_world) 1 (weights_ this))
    sample_features sample_world = Ok s /\
  (below_tolerance_run s 7 <= 7)%nat /\
  null_space_size s = Ok (Z.of_nat (below_tolerance_run s 7) + 1)%Z /\
  (outcome (SQPnP this sample_features sample_world [] []) = ReturnFalse <->
   (6 < Z.of_nat (below_tolerance_run s 7) + 1)%Z).
Proof.
  intros E this s.
  assert (H1 : length sample_world = length sample_features) by reflexivity.
  assert (H2 : (3 <= length sample_world)%nat) by (simpl; lia).
  assert (H3 : singular_values (resize (length sample_world) 1 (weights_ this))
                 sample_features sample_world = Ok s)
    by (vm_compute; reflexivity).
  assert (H4 : (below_tolerance_run s 7 <= 7)%nat) by (vm_compute; lia).
  split; [exact H1|]. split; [exact H2|]. split; [exact H3|].
  split; [exact H4|].
  exact (null_space_size_counts_from_index_7 this sample_features sample_world
           [] [] s H1 H2 H3 H4).
Defined.

(** C10 on singular values that are all zero. *)
Lemma null_space_scan_reads_below_index_0_witness :
  let E := sample_externals (1 # 10000000000) all_small in
  let this := sample_members E [] in
  let s := vec_of_list all_small in
  length sample_world = length sample_features /\
  (3 <= length sample_world)%nat /\
  singular_values (resize (length sample_world) 1 (weights_ this))
    sample_features sample_world = Ok s /\
  (forall j, (j <= 7)%nat -> s j < DEFAULT_RANK_TOLERANCE) /\
  null_space_size s = Fault (IndexOutOfBounds (-1)) /\
  outcome (SQPnP this sample_features sample_world [] [])
  = Faulted (IndexOutOfBounds (-1)).
Proof.
  intros E this s.
  assert (H1 : length sample_world = length sample_features) by reflexivity.
  assert (H2 : (3 <= length sample_world)%nat) by (simpl; lia).
  assert (H3 : singular_values (resize (length sample_world) 1 (weights_ this))
                 sample_features sample_world = Ok s)
    by (vm_compute; reflexivity).
  assert (H4 : forall j, (j <= 7)%nat -> s j < DEFAULT_RANK_TOLERANCE).
  { intros j Hj.
    do 8 (destruct j as [|j]; [vm_compute; reflexivity|]). lia. }
  split; [exact H1|]. split; [exact H2|]. split; [exact H3|].
  split; [exact H4|].
  exact (null_space_scan_reads_below_index_0 this sample_features sample_world
           [] [] s H1 H2 H3 H4).
Defined.

(** C9 as stated fails: the expansion body hands the raw column to the
    projector, the non-degenerate branch of the candidate loop the column
    times [SQRT3]; on the identity basis the first call already differs in
    its argument. *)
Lemma expansion_body_is_not_the_spec_body :
  let E := sample_externals (1 # 10000000000) one_small in
  let st := mkSearch DBL_MAX [] [] in
  expansion_body (fun v => v) Zero2 Identity9 1 1 st
  <> spec_expansion_body (fun v => v) Zero2 Identity9 1 1 st.
Proof.
  intros E st Heq.
  apply (f_equal log) in Heq.
  unfold expansion_body, spec_expansion_body in Heq.
  rewrite !refine_both_signs_log in Heq.
  apply app_inv_head in Heq.
  unfold two_sign_events in Heq.
  injection Heq as Hfirst _.
  apply (f_equal (fun v : Matrix91 => v 7%nat)) in Hfirst.
  vm_compute in Hfirst. discriminate Hfirst.
Qed.

(** C9 with one eigen point. *)
Lemma expansion_visits_raw_columns_witness :
  let E := sample_externals (1 # 10000000000) one_small in
  let st := mkSearch DBL_MAX [] [] in
  (1 <= 1 <= 6)%Z /\
  exists k : nat,
    (Z.of_nat k <= 8 - 1)%Z /\
    expansion_loop 9 (fun v => v) Zero2 Identity9 (vec_of_list one_small) 1 1%Z st
    = Ok (expansion_after (fun v => v) Zero2 Identity9 1 1 k st).
Proof.
  intros E st.
  assert (H : (1 <= 1 <= 6)%Z) by lia.
  split; [exact H|].
  destruct (expansion_visits_raw_columns (fun v => v) Zero2 Identity9
              (vec_of_list one_small) 1 st H) as (k & Hk & Hrun & _).
  exists k. split; [exact Hk|exact Hrun].
Defined.

(** * Further properties of the driver *)

(** ** The symmetric fill-in (lines 142-160) *)

Lemma fill_in_sym (O : Matrix99) (i j : nat) :
  (i < 9)%nat -> (j < 9)%nat -> fill_in O i j = fill_in O j i.
Proof.
  intros Hi Hj.
  do 9 (destruct i as [|i];
        [do 9 (destruct j as [|j]; [reflexivity|]); lia|]).
  lia.
Qed.

(** X1: whatever the upper triangle holds, the fill-in returns a symmetric
    matrix whose block (3:5, 3:5) is a copy of block (0:2, 0:2), and it
    overwrites none of the 24 accumulated entries. *)
Theorem fill_in_structure (O : Matrix99) :
  (forall i j, (i < 9)%nat -> (j < 9)%nat -> fill_in O i j = fill_in O j i) /\
  (forall i j, (i < 3)%nat -> (j < 3)%nat ->
     fill_in O (3 + i)%nat (3 + j)%nat = fill_in O i j) /\
  (forall i j, is_accumulated i j = true -> fill_in O i j = O i j).
Proof.
  split; [intros i j; apply fill_in_sym|]. split.
  - intros i j Hi Hj.
    do 3 (destruct i as [|i];
          [do 3 (destruct j as [|j]; [reflexivity|]); lia|]).
    lia.
  - intros i j Hacc.
    do 9 (destruct i as [|i];
          [do 9 (destruct j as [|j];
                 [first [reflexivity | cbv in Hacc; discriminate Hacc]|]);
           cbv in Hacc; discriminate Hacc|]).
    cbv in Hacc. discriminate Hacc.
Qed.

(** ** The accumulation loop (lines 89-140) *)

Lemma accumulate_term_other_entries (w : Q) (m : Vector2d) (M : Vector3d)
  (a : Accum) (i j : nat) :
  (is_accumulated i j = false ->
   Omega_ (accumulate_term w m M a) i j = Omega_ a i j) /\
  (is_QA_position i j = false ->
   QA (accumulate_term w m M a) i j = QA a i j).
Proof.
  split; intro H.
  - do 9 (destruct i as [|i];
          [do 9 (destruct j as [|j];
                 [first [cbv in H; discriminate H | reflexivity]|]);
           reflexivity|]).
    reflexivity.
  - do 3 (destruct i as [|i];
          [do 9 (destruct j as [|j];
                 [first [cbv in H; discriminate H | reflexivity]|]);
           reflexivity|]).
    reflexivity.
Qed.

(** X2: the loop adds to the 24 listed entries of [Omega_] and the 21 listed
    entries of [QA] only: every other entry (the lower triangle, block
    (3:5, 3:5), the cross block (0:2, 3:5)) is still the zero it was
    initialised with when the loop ends. *)
Theorem accumulate_touches_listed_entries_only (w : list Q)
  (fp : list Vector2d) (wp : list Vector3d) (a : Accum) :
  accumulate w fp wp = Ok a ->
  (forall i j, is_accumulated i j = false -> Omega_ a i j = 0) /\
  (forall i j, is_QA_position i j = false -> QA a i j = 0).
Proof.
  intro Hacc. unfold accumulate in Hacc.
  apply (for_upto_invariant
           (fun a =>
              (forall i j, is_accumulated i j = false -> Omega_ a i j = 0) /\
              (forall i j, is_QA_position i j = false -> QA a i j = 0))
           (accumulate_body w fp wp) (length wp)) with (i := 0%nat)
        (st := Accum_zero); [|exact Hacc|].
  - intros k st st' Hbody [HO HA]. unfold accumulate_body in Hbody.
    destruct (at_ w k) as [wk|]; [|discriminate].
    destruct (rbegin fp) as [m|]; [|discriminate].
    destruct (rbegin wp) as [M|]; [|discriminate].
    simpl in Hbody. injection Hbody as <-.
    split; intros i j Hij.
    + rewrite (proj1 (accumulate_term_other_entries wk m M st i j) Hij).
      apply HO. exact Hij.
    + rewrite (proj2 (accumulate_term_other_entries wk m M st i j) Hij).
      apply HA. exact Hij.
  - split; intros; reflexivity.
Qed.

(** The loop indexed: what it has added to [sum_w] after [count] passes
    from index [i]. *)
Lemma for_upto_sum_w (w : list Q) (fp : list Vector2d) (wp : list Vector3d)
  (count : nat) :
  forall (i : nat) (st st' : Accum),
    for_upto (accumulate_body w fp wp) i count st = Ok st' ->
    sum_w st' = fold_left Qplus (firstn count (skipn i w)) (sum_w st).
Proof.
  induction count as [|c IH]; intros i st st' Hrun.
  - simpl in Hrun. injection Hrun as <-. reflexivity.
  - simpl in Hrun. unfold accumulate_body at 1 in Hrun. unfold at_ in Hrun.
    destruct (nth_error w i) as [wi|] eqn:Hwi; [|discriminate].
    destruct (rbegin fp) as [m|]; [|discriminate].
    destruct (rbegin wp) as [M|]; [|discriminate].
    simpl in Hrun. apply IH in Hrun. rewrite Hrun.
    assert (Hskip : skipn i w = wi :: skipn (S i) w).
    { clear -Hwi. revert i Hwi. induction w as [|x tl IHw]; intros i Hwi.
      - destruct i; discriminate.
      - destruct i as [|i].
        + simpl in Hwi. injection Hwi as ->. reflexivity.
        + simpl in Hwi. simpl. apply IHw. exact Hwi. }
    rewrite Hskip. reflexivity.
Qed.

(** X3: [sum_w] is the sum, in index order, of the first [n] weights
    (those of [weights_] after the resize). *)
Theorem accumulate_sum_w (w : list Q) (fp : list Vector2d)
  (wp : list Vector3d) (a : Accum) :
  accumulate w fp wp = Ok a ->
  sum_w a = fold_left Qplus (firstn (length wp) w) 0.
Proof.
  intro Hacc. unfold accumulate in Hacc.
  apply for_upto_sum_w in Hacc. exact Hacc.
Qed.

(** ** RunSQP: termination and the edge cases of the tolerance *)

Section RunSQPFurther.
Context {E : Externals}.

(** X6: for every tolerance up to [INT_MAX - 1] (so that the [int]
    counter stays in range), every start vector and every correction
    routine, [RunSQP] terminates: any fuel of at least
    [sqp_iteration_cap] (the ceiling of the tolerance) computes its
    value, the loop makes at most that many passes, and the reported
    count is the number of passes or one more, never above [INT_MAX]. *)
Theorem RunSQP_terminates (nrm : Matrix91 -> Matrix91) (r0 : Matrix91)
  (fuel : nat) :
  DEFAULT_SQP_SQUARED_TOLERANCE <= inject_Z (INT_MAX - 1) ->
  (sqp_iteration_cap <= fuel)%nat ->
  RunSQP_fuel fuel nrm r0 = Ok (RunSQP nrm r0) /\
  exists (k : nat),
    (k <= sqp_iteration_cap)%nat /\
    (Z.of_nat k <= num_iterations (RunSQP nrm r0) <= Z.of_nat k + 1)%Z /\
    (num_iterations (RunSQP nrm r0) <= INT_MAX)%Z /\
    r (RunSQP nrm r0)
    = (if Qltb (Determinant9x1 (sqp_iterate k r0)) 0
       then vneg (sqp_iterate k r0) else sqp_iterate k r0).
Proof.
  intros Hint Hfuel. split; [apply RunSQP_fuel_enough; exact Hfuel|].
  assert (Hceil : (Qceiling DEFAULT_SQP_SQUARED_TOLERANCE <= INT_MAX - 1)%Z).
  { rewrite <- (Qceiling_Z (INT_MAX - 1)). apply Qceiling_resp_le. exact Hint. }
  destruct (RunSQP_shape nrm r0) as (k & extra & Hk & Hx & Hshape).
  exists k. split; [exact Hk|]. rewrite Hshape.
  destruct (RunSQP_finish_spec nrm (sqp_iterate k r0) (Z.of_nat k + extra)%Z)
    as (_ & _ & Hn & Hr).
  rewrite Hn. unfold sqp_iteration_cap in Hk. unfold INT_MAX in *.
  split; [lia|]. split; [lia|exact Hr].
Qed.

(** X7: with a tolerance in (0, 1] the loop makes exactly one pass, whatever
    the size of the correction: the returned vector is the start plus
    one correction (sign-normalised), and [num_iterations] is 1 when that
    correction was within the tolerance and 2 when it was not. *)
Theorem RunSQP_single_pass (nrm : Matrix91 -> Matrix91) (r0 : Matrix91) :
  0 < DEFAULT_SQP_SQUARED_TOLERANCE ->
  DEFAULT_SQP_SQUARED_TOLERANCE <= 1 ->
  RunSQP nrm r0
  = RunSQP_finish nrm (vadd r0 (SolveSQPSystem r0))
      (if Qltb DEFAULT_SQP_SQUARED_TOLERANCE
            (squaredNorm9 (SolveSQPSystem r0))
       then 2%Z else 1%Z).
Proof.
  intros Hpos Hle.
  assert (H1 : Qltb DEFAULT_SQP_SQUARED_TOLERANCE DBL_MAX = true).
  { apply Qltb_lt. pose proof one_lt_DBL_MAX. lra. }
  assert (H2 : Qltb (inject_Z 0) DEFAULT_SQP_SQUARED_TOLERANCE = true).
  { apply Qltb_lt. exact Hpos. }
  assert (H4 : Qltb (inject_Z (0 + 1)) DEFAULT_SQP_SQUARED_TOLERANCE = false).
  { apply Qltb_ge. exact Hle. }
  pose proof (RunSQP_fuel_enough nrm r0 (S sqp_iteration_cap)) as Hen.
  assert (Hle' : (sqp_iteration_cap <= S sqp_iteration_cap)%nat) by lia.
  specialize (Hen Hle'). unfold RunSQP_fuel in Hen.
  rewrite sqp_loop_eq, H1, H2 in Hen.
  rewrite sqp_loop_eq in Hen.
  destruct (Qltb DEFAULT_SQP_SQUARED_TOLERANCE
              (squaredNorm9 (SolveSQPSystem r0))).
  - rewrite H4 in Hen. unfold bind in Hen.
    injection Hen as Heq. symmetry. exact Heq.
  - unfold bind in Hen. injection Hen as Heq. symmetry. exact Heq.
Qed.

(** X8: with a tolerance that is zero or negative the loop body never runs:
    the first conjunct of the guard holds, the second ([0 < TOL]) fails
    after incrementing the counter.  The start vector comes back
    (sign-normalised) with [num_iterations = 1]. *)
Theorem RunSQP_nonpositive_tolerance (nrm : Matrix91 -> Matrix91)
  (r0 : Matrix91) :
  DEFAULT_SQP_SQUARED_TOLERANCE <= 0 ->
  RunSQP nrm r0 = RunSQP_finish nrm r0 1%Z.
Proof.
  intro Hle.
  assert (H1 : Qltb DEFAULT_SQP_SQUARED_TOLERANCE DBL_MAX = true).
  { apply Qltb_lt. pose proof one_lt_DBL_MAX. lra. }
  assert (H2 : Qltb (inject_Z 0) DEFAULT_SQP_SQUARED_TOLERANCE = false).
  { apply Qltb_ge. exact Hle. }
  unfold RunSQP, RunSQP_fuel.
  rewrite sqp_loop_eq, H1, H2. reflexivity.
Qed.

End RunSQPFurther.

(** ** The null-space size *)

Section NullSpaceFurther.
Context {E : Externals}.

(** X9: the scan has two ways to end: inside the array with a size between
    1 and 8, or at [s_[-1]], which happens exactly when the eight
    entries it tested were all below the tolerance. *)
Theorem null_space_size_cases (s : Matrix91) :
  match null_space_size s with
  | Ok n =>
      (1 <= n <= 8)%Z /\
      exists j, (j <= 7)%nat /\ DEFAULT_RANK_TOLERANCE <= s j
  | Fault f =>
      f = IndexOutOfBounds (-1) /\
      forall j, (j <= 7)%nat -> s j < DEFAULT_RANK_TOLERANCE
  end.
Proof.
  rewrite null_space_size_run.
  pose proof (below_tolerance_run_bound s 7) as Hb.
  destruct (below_tolerance_run s 7 <=? 7)%nat eqn:Hrun.
  - apply Nat.leb_le in Hrun. split; [lia|].
    assert (Hex : forall k, (below_tolerance_run s k <= k)%nat ->
              exists j, (j <= k)%nat /\ DEFAULT_RANK_TOLERANCE <= s j).
    { induction k as [|k IH]; simpl; intro Hk.
      - destruct (Qltb (s 0%nat) DEFAULT_RANK_TOLERANCE) eqn:H0; [lia|].
        exists 0%nat. split; [lia|]. apply Qltb_ge. exact H0.
      - destruct (Qltb (s (S k)) DEFAULT_RANK_TOLERANCE) eqn:HS.
        + destruct IH as (j & Hj & Hsj); [lia|].
          exists j. split; [lia|exact Hsj].
        + exists (S k). split; [lia|]. apply Qltb_ge. exact HS. }
    apply Hex. exact Hrun.
  - apply Nat.leb_gt in Hrun. split; [reflexivity|].
    apply below_tolerance_run_full. lia.
Qed.

Lemma count_below_S (s : Matrix91) (n : nat) :
  count_below s (S n)
  = (count_below s n
     + if Qltb (s n) DEFAULT_RANK_TOLERANCE then 1 else 0)%nat.
Proof.
  unfold count_below. rewrite seq_S, filter_app, length_app.
  simpl. destruct (Qltb (s n) DEFAULT_RANK_TOLERANCE); reflexivity.
Qed.

(** Below a value that is not below the tolerance, nothing is. *)
Lemma decreasing_none_below (s : Matrix91) (k : nat) :
  decreasing s -> (k <= 8)%nat -> DEFAULT_RANK_TOLERANCE <= s k ->
  count_below s (S k) = 0%nat.
Proof.
  intros Hdec. induction k as [|k IH]; intros Hk Hge.
  - rewrite count_below_S.
    assert (H0 : Qltb (s 0%nat) DEFAULT_RANK_TOLERANCE = false)
      by (apply Qltb_ge; exact Hge).
    rewrite H0. reflexivity.
  - rewrite count_below_S.
    assert (HS : Qltb (s (S k)) DEFAULT_RANK_TOLERANCE = false)
      by (apply Qltb_ge; exact Hge).
    rewrite HS, IH; [reflexivity|lia|].
    eapply Qle_trans; [exact Hge|]. apply Hdec. lia.
Qed.

Lemma decreasing_run_is_count (s : Matrix91) (k : nat) :
  decreasing s -> (k <= 8)%nat ->
  below_tolerance_run s k = count_below s (S k).
Proof.
  intros Hdec. induction k as [|k IH]; intro Hk.
  - rewrite count_below_S. simpl.
    destruct (Qltb (s 0%nat) DEFAULT_RANK_TOLERANCE); reflexivity.
  - simpl below_tolerance_run.
    destruct (Qltb (s (S k)) DEFAULT_RANK_TOLERANCE) eqn:HS.
    + rewrite count_below_S, HS, IH by lia. lia.
    + symmetry. apply decreasing_none_below; [exact Hdec|lia|].
      apply Qltb_ge. exact HS.
Qed.

(** X10: for singular values in decreasing order whose largest is not below
    the tolerance, the size the driver computes is the number of
    singular values below the tolerance, and 1 when there is none. *)
Theorem null_space_size_of_decreasing (s : Matrix91) :
  decreasing s -> DEFAULT_RANK_TOLERANCE <= s 0%nat ->
  null_space_size s = Ok (Z.max 1 (Z.of_nat (count_below s 9))).
Proof.
  intros Hdec H0.
  rewrite null_space_size_run.
  assert (H7 : (7 <= 8)%nat) by lia.
  rewrite (decreasing_run_is_count s 7 Hdec H7).
  assert (Hnot8 : count_below s 8 <> 8%nat).
  { rewrite <- (decreasing_run_is_count s 7 Hdec H7). intro Hfull.
    pose proof (proj1 (below_tolerance_run_full s 7) Hfull) as Hall.
    specialize (Hall 0%nat (Nat.le_0_l _)).
    exact (Qlt_not_le _ _ Hall H0). }
  pose proof (below_tolerance_run_bound s 7) as Hb.
  rewrite (decreasing_run_is_count s 7 Hdec H7) in Hb.
  assert (Hle : (count_below s 8 <=? 7)%nat = true)
    by (apply Nat.leb_le; lia).
  rewrite Hle. f_equal.
  rewrite (count_below_S s 8).
  destruct (Qltb (s 8%nat) DEFAULT_RANK_TOLERANCE) eqn:H8; [lia|].
  assert (H88 : (8 <= 8)%nat) by lia.
  pose proof (decreasing_none_below s 8 Hdec H88) as Hnone.
  rewrite count_below_S, H8 in Hnone.
  apply Qltb_ge in H8. specialize (Hnone H8). lia.
Qed.

End NullSpaceFurther.

(** ** What a whole call does *)

Lemma count_events_app (kind : Event -> bool) (l1 l2 : list Event) :
  count_events kind (l1 ++ l2)
  = (count_events kind l1 + count_events kind l2)%nat.
Proof. unfold count_events. rewrite filter_app, length_app. reflexivity. Qed.

Section CallProperties.
Context {E : Externals}.

Lemma two_sign_events_visit (nrm : Matrix91 -> Matrix91) (P : Matrix39)
  (e : Matrix91) :
  column_visit P (two_sign_events nrm P e) /\
  count_events is_RunSQP (two_sign_events nrm P e) = 2%nat /\
  count_events is_HandleSolution (two_sign_events nrm P e) = 2%nat.
Proof.
  unfold column_visit, two_sign_events, count_events. cbn [filter is_RunSQP
    is_HandleSolution length].
  repeat split; try lia.
  repeat constructor.
Qed.

Lemma candidate_body_visit (nrm : Matrix91 -> Matrix91) (P : Matrix39)
  (U : Matrix99) (i : Z) (st : SearchState) :
  exists evs, log (candidate_body nrm P U i st) = log st ++ evs /\
              column_visit P evs.
Proof.
  unfold candidate_body.
  destruct (Qltb _ DEFAULT_ORTHOGONALITY_SQUARED_ERROR_THRESHOLD).
  - eexists. split; [reflexivity|].
    unfold column_visit, count_events. cbn [filter is_RunSQP
      is_HandleSolution length].
    repeat split; try lia. repeat constructor.
  - eexists. split; [apply refine_both_signs_log|].
    apply two_sign_events_visit.
Qed.

Lemma visits_step (P : Matrix39) (n : nat) (evs evs' : list Event) :
  visits P n evs -> column_visit P evs' -> visits P (S n) (evs ++ evs').
Proof.
  intros (Hr & Hh & Ht) (Hr' & Hh' & Ht').
  unfold visits. rewrite !count_events_app.
  repeat split; try lia. apply Forall_app. split; assumption.
Qed.

Lemma candidate_columns_visits (nrm : Matrix91 -> Matrix91) (P : Matrix39)
  (U : Matrix99) (f : nat -> Z) (l : list nat) :
  forall st, exists evs,
    log (fold_left (fun st k => candidate_body nrm P U (f k) st) l st)
    = log st ++ evs /\ visits P (length l) evs.
Proof.
  induction l as [|k l IH] using rev_ind; intro st.
  - exists []. split; [simpl; rewrite app_nil_r; reflexivity|].
    unfold visits, count_events. simpl. repeat split; try lia. constructor.
  - rewrite fold_left_app. cbn [fold_left].
    destruct (IH st) as (evs & Hlog & Hv).
    destruct (candidate_body_visit nrm P U (f k)
                (fold_left (fun st k => candidate_body nrm P U (f k) st) l st))
      as (evs' & Hlog' & Hv').
    exists (evs ++ evs'). split.
    + rewrite Hlog', Hlog, app_assoc. reflexivity.
    + rewrite length_app. simpl. rewrite Nat.add_1_r.
      apply visits_step; assumption.
Qed.

Lemma expansion_after_visits (nrm : Matrix91 -> Matrix91) (P : Matrix39)
  (U : Matrix99) (n c : Z) (k : nat) :
  forall st, exists evs,
    log (expansion_after nrm P U n c k st) = log st ++ evs /\
    visits P k evs.
Proof.
  induction k as [|k IH]; intro st.
  - exists []. split; [simpl; rewrite app_nil_r; reflexivity|].
    unfold visits, count_events. simpl. repeat split; try lia. constructor.
  - cbn [expansion_after]. unfold expansion_body.
    destruct (IH st) as (evs & Hlog & Hv).
    eexists. split.
    + rewrite refine_both_signs_log, Hlog, <- app_assoc. reflexivity.
    + apply visits_step; [exact Hv|]. apply two_sign_events_visit.
Qed.

(** The log of a finished search: between [n] and 8 column visits. *)
Lemma search_visits (nrm : Matrix91 -> Matrix91) (P : Matrix39)
  (U : Matrix99) (s : Matrix91) (n : Z) (h : Hidden) (st : SearchState) :
  (1 <= n <= 6)%Z -> search nrm P U s n h = Ok st ->
  exists v : nat, (Z.to_nat n <= v <= 8)%nat /\ visits P v (log st).
Proof.
  intros Hn Hsearch. unfold search in Hsearch.
  assert (Hpos : (0 <? n)%Z = true) by (apply Z.ltb_lt; lia).
  rewrite Hpos in Hsearch.
  rewrite (candidate_loop_run nrm P U (Z.to_nat n) 9) in Hsearch by lia.
  unfold bind in Hsearch.
  destruct (candidate_columns_visits nrm P U
              (fun k => (9 - n + Z.of_nat k)%Z) (seq 0 (Z.to_nat n))
              (mkSearch DBL_MAX h [])) as (evs1 & Hlog1 & Hv1).
  rewrite length_seq in Hv1. cbn [log app] in Hlog1.
  remember (fold_left
              (fun st k => candidate_body nrm P U (9 - n + Z.of_nat k)%Z st)
              (seq 0 (Z.to_nat n)) (mkSearch DBL_MAX h [])) as st1 eqn:Hst1.
  clear Hst1.
  destruct (expansion_loop_run nrm P U s n (Z.to_nat (8 - n)) 9 1%Z st1)
    as (k & Hk & Hrun & _); try lia.
  rewrite Hrun in Hsearch.
  assert (Hst : st = expansion_after nrm P U n 1 k st1) by congruence.
  destruct (expansion_after_visits nrm P U n 1 k st1)
    as (evs2 & Hlog2 & Hv2).
  exists (Z.to_nat n + k)%nat. split; [lia|].
  rewrite Hst, Hlog2, Hlog1.
  destruct Hv1 as (Hr1 & Hh1 & Ht1). destruct Hv2 as (Hr2 & Hh2 & Ht2).
  unfold visits. rewrite !count_events_app.
  repeat split; try lia. apply Forall_app. split; assumption.
Qed.

(** The guard, once more, as a helper for the case analyses below. *)
Lemma SQPnP_guard_rejects (this : Members) (fp : list Vector2d)
  (wp : list Vector3d) (rot : list Quaterniond) (tr : list Vector3d) :
  length wp <> length fp \/ (length wp < 3)%nat \/ (length fp < 3)%nat ->
  SQPnP this fp wp rot tr = mkCall ReturnFalse this [] rot tr.
Proof.
  intro Hbad. unfold SQPnP.
  destruct (negb (length wp =? length fp)%nat || (length wp <? 3)%nat
            || (length fp <? 3)%nat)%bool eqn:Hguard; [reflexivity|].
  apply orb_false_iff in Hguard. destruct Hguard as [Hguard Hf].
  apply orb_false_iff in Hguard. destruct Hguard as [He Hw].
  apply negb_false_iff in He. apply Nat.eqb_eq in He.
  apply Nat.ltb_ge in Hw. apply Nat.ltb_ge in Hf.
  destruct Hbad as [H | [H | H]]; [congruence|lia|lia].
Qed.

(** The facts about the log of a call, path by path. *)
Lemma SQPnP_log_facts (this : Members) (fp : list Vector2d)
  (wp : list Vector3d) (rot : list Quaterniond) (tr : list Vector3d) :
  let res := SQPnP this fp wp rot tr in
  (outcome res <> NoReturnValue /\ search_log res = []) \/
  (outcome res = NoReturnValue /\
   exists v : nat, (1 <= v <= 8)%nat /\
     visits (P_ (members res)) v (search_log res)).
Proof.
  cbv zeta. unfold SQPnP.
  destruct (negb (length wp =? length fp)%nat || (length wp <? 3)%nat
            || (length fp <? 3)%nat)%bool;
    [left; split; [discriminate|reflexivity]|].
  destruct (accumulate _ fp wp) as [a|f];
    [|left; split; [discriminate|reflexivity]].
  destruct (null_space_size _) as [n|f] eqn:Hsize;
    [|left; split; [discriminate|reflexivity]].
  destruct (6 <? n)%Z eqn:H6; [left; split; [discriminate|reflexivity]|].
  destruct (search _ _ _ _ _ _) as [st|f] eqn:Hsearch;
    [|left; split; [discriminate|reflexivity]].
  right. split; [reflexivity|].
  cbn [members search_log P_ object_state] in *.
  apply null_space_size_positive in Hsize. apply Z.ltb_ge in H6.
  destruct (search_visits _ _ _ _ _ _ _ (conj Hsize H6) Hsearch)
    as (v & Hv & Hvis).
  exists v. split; [lia|exact Hvis].
Qed.

(** X12: every solution a call hands to [HandleSolution] carries the
    translation [P_ * r_hat], with [P_] the translation map the call
    leaves in the object. *)
Theorem SQPnP_translations (this : Members) (fp : list Vector2d)
  (wp : list Vector3d) (rot : list Quaterniond) (tr : list Vector3d) :
  let res := SQPnP this fp wp rot tr in
  Forall (translation_from (P_ (members res))) (search_log res).
Proof.
  cbv zeta.
  destruct (SQPnP_log_facts this fp wp rot tr)
    as [[_ Hlog] | [_ (v & _ & _ & _ & Ht)]].
  - rewrite Hlog. constructor.
  - exact Ht.
Qed.

(** X13: a call ends in one of three ways: [return false], the closing brace
    without a value, or the read of [s_[-1]].  It never throws from
    [weights_.at(i)] and never dereferences [rbegin()] of an empty
    sequence, whatever [weights_] held before the call. *)
Theorem SQPnP_outcome_cases (this : Members) (fp : list Vector2d)
  (wp : list Vector3d) (rot : list Quaterniond) (tr : list Vector3d) :
  let res := SQPnP this fp wp rot tr in
  outcome res = ReturnFalse \/
  outcome res = NoReturnValue \/
  outcome res = Faulted (IndexOutOfBounds (-1)).
Proof.
  cbv zeta.
  destruct (Nat.eq_dec (length wp) (length fp)) as [Hlen|Hlen].
  - destruct (le_lt_dec 3 (length wp)) as [Hn|Hn].
    + destruct (singular_values_ok (weights_ this) fp wp Hlen Hn) as [s Hs].
      rewrite (SQPnP_outcome this fp wp rot tr s Hlen Hn Hs).
      rewrite null_space_size_run.
      destruct (below_tolerance_run s 7 <=? 7)%nat; [|right; right; reflexivity].
      destruct (6 <? _)%Z; [left|right; left]; reflexivity.
    + left. rewrite SQPnP_guard_rejects; [reflexivity|right; left; exact Hn].
  - left. rewrite SQPnP_guard_rejects; [reflexivity|left; exact Hlen].
Qed.

End CallProperties.

(** ** Weights carried over from earlier calls *)

Section MemberProperties.
Context {E : Externals}.

Lemma SQPnP_weights (this : Members) (fp : list Vector2d)
  (wp : list Vector3d) (rot : list Quaterniond) (tr : list Vector3d) :
  length wp = length fp -> (3 <= length wp)%nat ->
  weights_ (members (SQPnP this fp wp rot tr))
  = resize (length wp) 1 (weights_ this).
Proof.
  intros Hlen Hn. unfold SQPnP.
  assert (Hguard : (negb (length wp =? length fp)%nat
                    || (length wp <? 3)%nat
                    || (length fp <? 3)%nat)%bool = false).
  { rewrite <- Hlen, Nat.eqb_refl.
    assert (H3 : (length wp <? 3)%nat = false) by (apply Nat.ltb_ge; lia).
    rewrite H3. reflexivity. }
  rewrite Hguard.
  destruct (accumulate _ fp wp) as [a|f]; [|reflexivity].
  destruct (null_space_size _) as [n|f]; [|reflexivity].
  destruct (6 <? n)%Z; [reflexivity|].
  destruct (search _ _ _ _ _ _) as [st|f]; reflexivity.
Qed.

(** X14: a call that passes the guard leaves [weights_] with exactly [n]
    entries, and [resize] does not reset what was there: every weight
    the object already held at an index below [n] is kept and used, and
    only the indices beyond the old length are filled with 1. *)
Theorem SQPnP_keeps_earlier_weights (this : Members) (fp : list Vector2d)
  (wp : list Vector3d) (rot : list Quaterniond) (tr : list Vector3d) :
  length wp = length fp -> (3 <= length wp)%nat ->
  let w' := weights_ (members (SQPnP this fp wp rot tr)) in
  length w' = length wp /\
  (forall i x, (i < length wp)%nat ->
     nth_error (weights_ this) i = Some x -> nth_error w' i = Some x) /\
  (forall i, (length (weights_ this) <= i < length wp)%nat ->
     nth_error w' i = Some 1).
Proof.
  intros Hlen Hn w'. subst w'.
  rewrite (SQPnP_weights this fp wp rot tr Hlen Hn).
  unfold resize. split; [|split].
  - rewrite length_app, length_firstn, repeat_length. lia.
  - intros i x Hi Hx.
    assert (Hlt : (i < length (weights_ this))%nat).
    { apply nth_error_Some. rewrite Hx. discriminate. }
    rewrite nth_error_app1 by (rewrite length_firstn; lia).
    rewrite nth_error_firstn.
    assert (Hb : (i <? length wp)%nat = true) by (apply Nat.ltb_lt; lia).
    rewrite Hb. exact Hx.
  - intros i [Hge Hi].
    rewrite nth_error_app2 by (rewrite length_firstn; lia).
    apply nth_error_repeat. rewrite length_firstn. lia.
Qed.

End MemberProperties.

(** ** Runs on the sample data, continued *)

Lemma fill_in_structure_witness :
  fill_in sample_matrix 6%nat 1%nat = fill_in sample_matrix 1%nat 6%nat /\
  fill_in sample_matrix 6%nat 1%nat = 7 /\
  fill_in sample_matrix 4%nat 5%nat = fill_in sample_matrix 1%nat 2%nat /\
  fill_in sample_matrix 7%nat 8%nat = sample_matrix 7%nat 8%nat.
Proof.
  destruct (fill_in_structure sample_matrix) as (Hsym & Hblock & Hkeep).
  split; [apply Hsym; lia|].
  split; [vm_compute; reflexivity|].
  split; [apply (Hblock 1%nat 2%nat); lia|].
  apply Hkeep. reflexivity.
Defined.

Lemma accumulate_ignores_earlier_points_witness :
  length [mkV3 1 0 0; mkV3 0 1 0] = length [mkV3 5 5 5; mkV3 7 7 7] /\
  accumulate [1; 1; 1] ([mkV2 1 0; mkV2 0 1] ++ [mkV2 2 3])
    ([mkV3 1 0 0; mkV3 0 1 0] ++ [mkV3 0 0 1])
  = accumulate [1; 1; 1] ([mkV2 4 4; mkV2 6 6] ++ [mkV2 2 3])
      ([mkV3 5 5 5; mkV3 7 7 7] ++ [mkV3 0 0 1]).
Proof.
  assert (H : length [mkV3 1 0 0; mkV3 0 1 0]
              = length [mkV3 5 5 5; mkV3 7 7 7]) by reflexivity.
  split; [exact H|].
  exact (accumulate_ignores_earlier_points [1; 1; 1]
           [mkV2 1 0; mkV2 0 1] [mkV2 4 4; mkV2 6 6]
           [mkV3 1 0 0; mkV3 0 1 0] [mkV3 5 5 5; mkV3 7 7 7]
           (mkV2 2 3) (mkV3 0 0 1) H).
Defined.

(** The accumulation facts on the three sample correspondences. *)
Lemma accumulate_touches_listed_entries_only_witness :
  exists a : Accum,
    accumulate [1; 1; 1] sample_features sample_world = Ok a /\
    (forall i j, is_accumulated i j = false -> Omega_ a i j = 0) /\
    (forall i j, is_QA_position i j = false -> QA a i j = 0).
Proof.
  destruct (accumulate_ok [] sample_features sample_world eq_refl)
    as [a Ha]; [simpl; lia|].
  exists a. split; [exact Ha|].
  exact (accumulate_touches_listed_entries_only _ _ _ a Ha).
Defined.

Lemma accumulate_sum_w_witness :
  exists a : Accum,
    accumulate stale_weights sample_features sample_world = Ok a /\
    sum_w a = fold_left Qplus (firstn (length sample_world) stale_weights) 0 /\
    sum_w a == 10.
Proof.
  destruct (accumulate_ok stale_weights sample_features sample_world eq_refl)
    as [a Ha]; [simpl; lia|].
  exists a. split; [exact Ha|].
  pose proof (accumulate_sum_w _ _ _ a Ha) as Hsum.
  split; [exact Hsum|]. rewrite Hsum. vm_compute. reflexivity.
Defined.

Lemma RunSQP_terminates_witness :
  let E := sample_externals (1 # 10000000000) one_small in
  DEFAULT_SQP_SQUARED_TOLERANCE <= inject_Z (INT_MAX - 1) /\
  (sqp_iteration_cap <= 3)%nat /\
  RunSQP_fuel 3 (fun v => v) (unit9 1) = Ok (RunSQP (fun v => v) (unit9 1)).
Proof.
  intro E.
  assert (H0 : DEFAULT_SQP_SQUARED_TOLERANCE <= inject_Z (INT_MAX - 1))
    by (vm_compute; discriminate).
  assert (H : (sqp_iteration_cap <= 3)%nat) by (vm_compute; lia).
  split; [exact H0|]. split; [exact H|].
  exact (proj1 (RunSQP_terminates (fun v => v) (unit9 1) 3 H0 H)).
Defined.

Lemma RunSQP_single_pass_witness :
  let E := sample_externals (1 # 10000000000) one_small in
  0 < DEFAULT_SQP_SQUARED_TOLERANCE /\
  DEFAULT_SQP_SQUARED_TOLERANCE <= 1 /\
  RunSQP (fun v => v) (unit9 1)
  = RunSQP_finish (fun v => v) (vadd (unit9 1) (SolveSQPSystem (unit9 1)))
      (if Qltb DEFAULT_SQP_SQUARED_TOLERANCE
            (squaredNorm9 (SolveSQPSystem (unit9 1)))
       then 2%Z else 1%Z).
Proof.
  intro E.
  assert (H1 : 0 < DEFAULT_SQP_SQUARED_TOLERANCE) by (vm_compute; reflexivity).
  assert (H2 : DEFAULT_SQP_SQUARED_TOLERANCE <= 1)
    by (vm_compute; discriminate).
  split; [exact H1|]. split; [exact H2|].
  exact (RunSQP_single_pass (fun v => v) (unit9 1) H1 H2).
Defined.

Lemma RunSQP_nonpositive_tolerance_witness :
  let E := sample_externals 0 one_small in
  DEFAULT_SQP_SQUARED_TOLERANCE <= 0 /\
  RunSQP (fun v => v) (unit9 1) = RunSQP_finish (fun v => v) (unit9 1) 1%Z.
Proof.
  intro E.
  assert (H : DEFAULT_SQP_SQUARED_TOLERANCE <= 0) by (vm_compute; discriminate).
  split; [exact H|].
  exact (RunSQP_nonpositive_tolerance (fun v => v) (unit9 1) H).
Defined.

Lemma null_space_size_of_decreasing_witness :
  let E := sample_externals (1 # 10000000000) one_small in
  let s := vec_of_list one_small in
  decreasing s /\ DEFAULT_RANK_TOLERANCE <= s 0%nat /\
  null_space_size s = Ok (Z.max 1 (Z.of_nat (count_below s 9))).
Proof.
  intros E s.
  assert (Hdec : decreasing s).
  { intros k Hk.
    do 8 (destruct k as [|k]; [vm_compute; discriminate|]). lia. }
  assert (H0 : DEFAULT_RANK_TOLERANCE <= s 0%nat)
    by (vm_compute; discriminate).
  split; [exact Hdec|]. split; [exact H0|].
  exact (null_space_size_of_decreasing s Hdec H0).
Defined.

Lemma SQPnP_keeps_earlier_weights_witness :
  let E := sample_externals (1 # 10000000000) one_small in
  let this := mkMembers stale_weights 0%Z Zero2 Zero2 (fun _ => 0) None [] in
  length sample_world = length sample_features /\
  (3 <= length sample_world)%nat /\
  weights_ (members (SQPnP this sample_features sample_world [] []))
  = [2; 3; 5].
Proof.
  intros E this.
  assert (H1 : length sample_world = length sample_features) by reflexivity.
  assert (H2 : (3 <= length sample_world)%nat) by (simpl; lia).
  split; [exact H1|]. split; [exact H2|].
  destruct (SQPnP_keeps_earlier_weights this sample_features sample_world
              [] [] H1 H2) as (Hlen & Hkeep & _).
  assert (K0 := Hkeep 0%nat 2 ltac:(simpl; lia) eq_refl).
  assert (K1 := Hkeep 1%nat 3 ltac:(simpl; lia) eq_refl).
  assert (K2 := Hkeep 2%nat 5 ltac:(simpl; lia) eq_refl).
  destruct (weights_ (members (SQPnP this sample_features sample_world [] [])))
    as [|a [|b [|c [|d l]]]]; try discriminate Hlen.
  simpl in K0, K1, K2. congruence.
Defined.

(** ** The candidate loop inside a call *)

Section CandidateLoop.
Context {E : Externals}.

(** [search] starts with the [for] loop over the last [n] columns, from
    the initial minimum [DBL_MAX], and hands its state to the expansion
    loop. *)
Lemma search_enters_candidate_loop (nrm : Matrix91 -> Matrix91)
  (P : Matrix39) (U : Matrix99) (s : Matrix91) (n : Z) (h : Hidden) :
  (1 <= n <= 9)%Z ->
  search nrm P U s n h
  = expansion_loop 9 nrm P U s n 1%Z
      (fold_left
         (fun st j => candidate_body nrm P U (9 - n + Z.of_nat j)%Z st)
         (seq 0 (Z.to_nat n)) (mkSearch DBL_MAX h [])).
Proof.
  intro Hn. unfold search.
  assert (Hpos : (0 <? n)%Z = true) by (apply Z.ltb_lt; lia).
  rewrite Hpos.
  rewrite (candidate_loop_run nrm P U (Z.to_nat n) 9) by lia.
  reflexivity.
Qed.

(** C8: in a call that reaches the search with null-space size
    [n <= 6], the [for] loop runs over the last [n] columns of [U_]
    (those of the smallest singular values) in increasing index,
    starting from the running minimum [DBL_MAX] and the object state of
    the caller, and the calls it makes open the call's log.  For each
    column, [e] is the column times [SQRT3].  If
    [OrthogonalityError(e)] is below the threshold, the one solution
    [r_hat = Determinant9x1(e) * e], [t = P_ * r_hat],
    [num_iterations = 0] goes to [HandleSolution], whose result becomes
    the running minimum and the object state; [RunSQP] is not called.
    Otherwise [RunSQP] is called exactly twice, on
    [NearestRotationMatrix(e)] and on [NearestRotationMatrix(-e)]; each
    result, with [t = P_ * r_hat], goes to [HandleSolution], the second
    call receiving the running minimum and object state the first one
    returned. *)
Theorem candidate_handling (this : Members) (fp : list Vector2d)
  (wp : list Vector3d) (rot : list Quaterniond) (tr : list Vector3d)
  (a : Accum) (n : Z) :
  length wp = length fp -> (3 <= length wp)%nat ->
  accumulate (resize (length wp) 1 (weights_ this)) fp wp = Ok a ->
  let P := fst (complete_form a) in
  let U := fst (JacobiSVD (snd (complete_form a))) in
  let s := snd (JacobiSVD (snd (complete_form a))) in
  let nrm := select_nearest_rotation (nearest_rotation_method parameters_) in
  null_space_size s = Ok n -> (n <= 6)%Z ->
  let st0 := mkSearch DBL_MAX (object_state this) [] in
  let after_candidates :=
    fold_left (fun st j => candidate_body nrm P U (9 - n + Z.of_nat j)%Z st)
      (seq 0 (Z.to_nat n)) st0 in
  candidate_loop 9 nrm P U (9 - n)%Z st0 = Ok after_candidates /\
  search nrm P U s n (object_state this)
  = expansion_loop 9 nrm P U s n 1%Z after_candidates /\
  (exists later : list Event,
     search_log (SQPnP this fp wp rot tr) = log after_candidates ++ later) /\
  forall (i : Z) (st' : SearchState),
    let e := vscale SQRT3 (column U (Z.to_nat i)) in
    let with_t sol :=
      mkSol (r sol) (r_hat sol) (mvmul9 P (r_hat sol)) (num_iterations sol) in
    let direct :=
      mkSol indeterminate91 (vscale (Determinant9x1 e) e)
        (mvmul9 P (vscale (Determinant9x1 e) e)) 0%Z in
    let sol1 := with_t (RunSQP nrm (nrm e)) in
    let sol2 := with_t (RunSQP nrm (nrm (vneg e))) in
    let p0 := HandleSolution direct (min_sq_error st') (hidden st') in
    let p1 := HandleSolution sol1 (min_sq_error st') (hidden st') in
    let p2 := HandleSolution sol2 (fst p1) (snd p1) in
    candidate_body nrm P U i st'
    = if Qltb (OrthogonalityError e)
           DEFAULT_ORTHOGONALITY_SQUARED_ERROR_THRESHOLD
      then mkSearch (fst p0) (snd p0) (log st' ++ [CallHandleSolution direct])
      else mkSearch (fst p2) (snd p2)
             (log st'
              ++ [ CallNearestRotation e; CallRunSQP (nrm e);
                   CallHandleSolution sol1;
                   CallNearestRotation (vneg e); CallRunSQP (nrm (vneg e));
                   CallHandleSolution sol2 ]).
Proof.
  intros Hlen Hn Hacc P U s nrm Hsize H6 st0 after_candidates.
  assert (H1 : (1 <= n)%Z) by (apply (null_space_size_positive s); exact Hsize).
  assert (Hloop : candidate_loop 9 nrm P U (9 - n)%Z st0 = Ok after_candidates).
  { apply (candidate_loop_run nrm P U (Z.to_nat n) 9); lia. }
  assert (Hsearch : search nrm P U s n (object_state this)
                    = expansion_loop 9 nrm P U s n 1%Z after_candidates).
  { apply search_enters_candidate_loop. lia. }
  split; [exact Hloop|]. split; [exact Hsearch|]. split.
  - destruct (expansion_loop_run nrm P U s n (Z.to_nat (8 - n)) 9 1%Z
                after_candidates) as (k & _ & Hrun & _); try lia.
    destruct (expansion_after_visits nrm P U n 1 k after_candidates)
      as (later & Hlog & _).
    exists later. rewrite <- Hlog.
    rewrite Hrun in Hsearch.
    assert (Hguard : (negb (length wp =? length fp)%nat
                      || (length wp <? 3)%nat
                      || (length fp <? 3)%nat)%bool = false).
    { rewrite <- Hlen, Nat.eqb_refl.
      assert (H3 : (length wp <? 3)%nat = false) by (apply Nat.ltb_ge; lia).
      rewrite H3. reflexivity. }
    assert (Hnot : (6 <? n)%Z = false) by (apply Z.ltb_ge; lia).
    subst after_candidates st0 nrm s U P.
    unfold SQPnP. rewrite Hguard, Hacc, Hsize, Hnot.
    cbn [object_state]. rewrite Hsearch. reflexivity.
  - intros i st'. cbv zeta. unfold candidate_body.
    destruct (Qltb (OrthogonalityError (vscale SQRT3 (column U (Z.to_nat i))))
                DEFAULT_ORTHOGONALITY_SQUARED_ERROR_THRESHOLD).
    + reflexivity.
    + unfold refine_both_signs, refine_from, handle, record.
      cbn [min_sq_error hidden log].
      rewrite <- !app_assoc. reflexivity.
Qed.

End CandidateLoop.

(** C8 on the second instance, with two eigen points: column 7 is
    accepted directly, column 8 is refined in both signs. *)
Lemma candidate_handling_witness :
  let E := mixed_externals in
  let this := sample_members E [] in
  let st0 := mkSearch DBL_MAX (object_state this) [] in
  let nrm := select_nearest_rotation (nearest_rotation_method parameters_) in
  exists a : Accum,
    let P := fst (complete_form a) in
    let U := fst (JacobiSVD (snd (complete_form a))) in
    let e7 := vscale SQRT3 (column U 7) in
    let e8 := vscale SQRT3 (column U 8) in
    let with_t sol :=
      mkSol (r sol) (r_hat sol) (mvmul9 P (r_hat sol)) (num_iterations sol) in
    let direct7 :=
      mkSol indeterminate91 (vscale (Determinant9x1 e7) e7)
        (mvmul9 P (vscale (Determinant9x1 e7) e7)) 0%Z in
    let sol1 := with_t (RunSQP nrm (nrm e8)) in
    let sol2 := with_t (RunSQP nrm (nrm (vneg e8))) in
    length sample_world = length sample_features /\
    (3 <= length sample_world)%nat /\
    accumulate (resize (length sample_world) 1 (weights_ this))
      sample_features sample_world = Ok a /\
    null_space_size (snd (JacobiSVD (snd (complete_form a)))) = Ok 2%Z /\
    (2 <= 6)%Z /\
    candidate_body nrm P U 7 st0
    = mkSearch (fst (HandleSolution direct7 DBL_MAX []))
        (snd (HandleSolution direct7 DBL_MAX []))
        [CallHandleSolution direct7] /\
    candidate_body nrm P U 8 st0
    = mkSearch
        (fst (HandleSolution sol2 (fst (HandleSolution sol1 DBL_MAX []))
                (snd (HandleSolution sol1 DBL_MAX []))))
        (snd (HandleSolution sol2 (fst (HandleSolution sol1 DBL_MAX []))
                (snd (HandleSolution sol1 DBL_MAX []))))
        [ CallNearestRotation e8; CallRunSQP (nrm e8);
          CallHandleSolution sol1;
          CallNearestRotation (vneg e8); CallRunSQP (nrm (vneg e8));
          CallHandleSolution sol2 ] /\
    (exists later : list Event,
       search_log (SQPnP this sample_features sample_world [] [])
       = log (fold_left
                (fun st j => candidate_body nrm P U (9 - 2 + Z.of_nat j)%Z st)
                (seq 0 (Z.to_nat 2)) st0)
         ++ later) /\
    map is_RunSQP
      (firstn 7 (search_log (SQPnP this sample_features sample_world [] [])))
    = [false; false; true; false; false; true; false] /\
    map is_HandleSolution
      (firstn 7 (search_log (SQPnP this sample_features sample_world [] [])))
    = [true; false; false; true; false; false; true].
Proof.
  intros E this st0 nrm.
  destruct (accumulate_ok (weights_ this) sample_features sample_world eq_refl)
    as [a Ha]; [simpl; lia|].
  exists a. intros P U e7 e8 with_t direct7 sol1 sol2.
  assert (H1 : length sample_world = length sample_features) by reflexivity.
  assert (H2 : (3 <= length sample_world)%nat) by (simpl; lia).
  assert (H4 : null_space_size (snd (JacobiSVD (snd (complete_form a))))
               = Ok 2%Z) by (vm_compute; reflexivity).
  assert (H5 : (2 <= 6)%Z) by lia.
  split; [exact H1|]. split; [exact H2|]. split; [exact Ha|].
  split; [exact H4|]. split; [exact H5|].
  destruct (candidate_handling this sample_features sample_world [] [] a 2
              H1 H2 Ha H4 H5) as (_ & _ & Hprefix & Hcolumn).
  assert (Hc7 : Qltb (OrthogonalityError e7)
                  DEFAULT_ORTHOGONALITY_SQUARED_ERROR_THRESHOLD = true)
    by (vm_compute; reflexivity).
  assert (Hc8 : Qltb (OrthogonalityError e8)
                  DEFAULT_ORTHOGONALITY_SQUARED_ERROR_THRESHOLD = false)
    by (vm_compute; reflexivity).
  split.
  { pose proof (Hcolumn 7%Z st0) as H7. cbv zeta in H7.
    change (Z.to_nat 7) with 7%nat in H7. fold U in H7. fold e7 in H7.
    rewrite Hc7 in H7. exact H7. }
  split.
  { pose proof (Hcolumn 8%Z st0) as H8. cbv zeta in H8.
    change (Z.to_nat 8) with 8%nat in H8. fold U in H8. fold e8 in H8.
    rewrite Hc8 in H8. exact H8. }
  split; [exact Hprefix|].
  split; vm_compute; reflexivity.
Defined.
